(** * The Facebook Messenger channel of rasa_core: a shallow embedding

    This development embeds [rasa_core/channels/facebook.py] in Rocq and
    proves properties of its four parts:

    - the webhook authentication, [FacebookInput.validate_hub_signature];
    - the classification of inbound events, [Messenger.message];
    - the thread-control handover, [Messenger.handover];
    - the shaping of outbound messages in [MessengerBot].

    Python values read from JSON are one inductive type, [pyobj]; the
    operations Python applies to them ([.get], subscripting, [len], [in],
    truth testing) are functions over it that return a [result], the value
    or the exception raised.  Code with side effects runs in a small monad
    [M] that threads the state of the downstream handler, records the
    observable calls in order and carries the exception, if any. *)

From Stdlib Require Import ZArith Lia List String Ascii SpecFloat.
From Stdlib.Strings Require Import Byte.
From stdpp Require Import base list strings gmap.

Import ListNotations.
Local Open Scope string_scope.
Local Open Scope list_scope.
Local Open Scope Z_scope.

(** ** Exceptions and results *)

(** The exception classes the channel can meet.  [KeyboardInterrupt],
    [SystemExit] and [GeneratorExit] derive from [BaseException] only,
    every other class derives from [Exception]. *)
Inductive exn : Type :=
| AttributeError
| IndexError
| KeyError
| TypeError
| ValueError
| BadRequest
| UserException (name : string)
| KeyboardInterrupt
| SystemExit
| GeneratorExit.

(** [isinstance(e, Exception)]: what an [except Exception] clause catches. *)
Definition is_Exception (e : exn) : bool :=
  match e with
  | KeyboardInterrupt | SystemExit | GeneratorExit => false
  | _ => true
  end.

Inductive result (A : Type) : Type :=
| Ok (a : A)
| Raise (e : exn).
Arguments Ok {A} a.
Arguments Raise {A} e.

Definition rbind {A B} (r : result A) (k : A -> result B) : result B :=
  match r with
  | Ok a => k a
  | Raise e => Raise e
  end.

Declare Scope result_scope.
Delimit Scope result_scope with result.
Notation "'let*' x ':=' r 'in' k" := (rbind r (fun x => k))
  (at level 10, x name, r at level 100, k at level 200) : result_scope.

(** ** Strings

    A Python [str] is a [string], one [ascii] per character: the texts
    of the model are those over the characters 0 to 255. *)

Module PyStr.

Fixpoint drop (n : nat) (s : string) : string :=
  match n, s with
  | O, _ => s
  | S _, EmptyString => EmptyString
  | S k, String _ s' => drop k s'
  end.

(** [sub in s] on strings. *)
Fixpoint contains (sub s : string) : bool :=
  String.prefix sub s ||
  match s with
  | EmptyString => false
  | String _ s' => contains sub s'
  end.

(** [s.split(sep)] for a non-empty [sep]: the occurrences of [sep] are
    found from the left and do not overlap.  [skip] counts the
    characters of the separator just matched that are still to be
    passed over; [cur] is the piece being read. *)
Fixpoint split_aux (sep : string) (skip : nat) (cur s : string)
  : list string :=
  match s with
  | EmptyString => [cur]
  | String c s' =>
      match skip with
      | S k => split_aux sep k cur s'
      | O =>
          if String.prefix sep s
          then cur :: split_aux sep (String.length sep - 1) EmptyString s'
          else split_aux sep 0 (cur +:+ String c EmptyString) s'
      end
  end.

Definition split (sep s : string) : list string :=
  split_aux sep 0 EmptyString s.

(** [sep.join(parts)]. *)
Fixpoint join (sep : string) (parts : list string) : string :=
  match parts with
  | [] => EmptyString
  | [p] => p
  | p :: ps => p +:+ sep +:+ join sep ps
  end.

(** The characters of [s], each as a string of length one: what
    iterating over a [str] yields. *)
Fixpoint chars (s : string) : list string :=
  match s with
  | EmptyString => []
  | String c s' => String c EmptyString :: chars s'
  end.

End PyStr.

(** ** Bytes, SHA-1 and HMAC

    [hashlib] and [hmac] belong to Python's standard library.  SHA-1
    follows FIPS 180-4 and HMAC follows [hmac.py] (RFC 2104), both on
    [list byte]; words are integers below [2^32]. *)

Abbreviation bytes := (list byte).

Definition byte_to_Z (b : byte) : Z := Z.of_N (Byte.to_N b).

Definition byte_of_Z (z : Z) : byte :=
  match Byte.of_N (Z.to_N (z mod 256)) with
  | Some b => b
  | None => x00
  end.

(** [bytearray(s, 'utf8')] for characters below 256. *)
Definition utf8_char (c : ascii) : bytes :=
  let n := Z.of_N (N_of_ascii c) in
  if n <? 128 then [byte_of_Z n]
  else [byte_of_Z (Z.lor 192 (Z.shiftr n 6)); byte_of_Z (Z.lor 128 (Z.land n 63))].

Fixpoint utf8 (s : string) : bytes :=
  match s with
  | EmptyString => []
  | String c s' => utf8_char c ++ utf8 s'
  end.

Module SHA1.

Definition w32 (x : Z) : Z := Z.land x 4294967295.

Definition rotl (n x : Z) : Z :=
  w32 (Z.lor (Z.shiftl x n) (Z.shiftr x (32 - n))).

Definition add32 (x y : Z) : Z := w32 (x + y).

(** Big-endian encodings. *)
Definition be32 (x : Z) : list Z :=
  [Z.land (Z.shiftr x 24) 255; Z.land (Z.shiftr x 16) 255;
   Z.land (Z.shiftr x 8) 255; Z.land x 255].

Definition be64 (x : Z) : list Z := be32 (Z.shiftr x 32) ++ be32 (w32 x).

Definition pad (msg : list Z) : list Z :=
  let len := Z.of_nat (length msg) in
  msg ++ [128] ++ repeat 0 (Z.to_nat ((55 - len) mod 64)) ++ be64 (8 * len).

Fixpoint words (n : nat) (bs : list Z) : list Z :=
  match n, bs with
  | S k, b0 :: b1 :: b2 :: b3 :: bs' =>
      (Z.shiftl b0 24 + Z.shiftl b1 16 + Z.shiftl b2 8 + b3) :: words k bs'
  | _, _ => []
  end.

(** The message schedule: [n] more words appended to [w]. *)
Fixpoint schedule (n : nat) (w : list Z) : list Z :=
  match n with
  | O => w
  | S k =>
      let t := length w in
      let x i := nth (t - i) w 0 in
      schedule k
        (w ++ [rotl 1 (Z.lxor (Z.lxor (Z.lxor (x 3%nat) (x 8%nat)) (x 14%nat)) (x 16%nat))])
  end.

Record regs := Regs { ra : Z; rb : Z; rc : Z; rd : Z; re : Z }.

Definition f (t : nat) (b c d : Z) : Z :=
  if (t <? 20)%nat then Z.lor (Z.land b c) (Z.land (Z.lxor b 4294967295) d)
  else if (t <? 40)%nat then Z.lxor (Z.lxor b c) d
  else if (t <? 60)%nat then Z.lor (Z.lor (Z.land b c) (Z.land b d)) (Z.land c d)
  else Z.lxor (Z.lxor b c) d.

Definition k (t : nat) : Z :=
  if (t <? 20)%nat then 1518500249
  else if (t <? 40)%nat then 1859775393
  else if (t <? 60)%nat then 2400959708
  else 3395469782.

Fixpoint rounds (t : nat) (w : list Z) (r : regs) : regs :=
  match w with
  | [] => r
  | wt :: w' =>
      let temp :=
        add32 (add32 (add32 (add32 (rotl 5 (ra r)) (f t (rb r) (rc r) (rd r)))
                            (re r)) (k t)) wt in
      rounds (S t) w' (Regs temp (ra r) (rotl 30 (rb r)) (rc r) (rd r))
  end.

Definition block (h : regs) (bs : list Z) : regs :=
  let r := rounds 0 (schedule 64 (words 16 bs)) h in
  Regs (add32 (ra h) (ra r)) (add32 (rb h) (rb r)) (add32 (rc h) (rc r))
       (add32 (rd h) (rd r)) (add32 (re h) (re r)).

(** [n] bounds the number of 64-byte blocks. *)
Fixpoint blocks (n : nat) (h : regs) (bs : list Z) : regs :=
  match n, bs with
  | S m, _ :: _ => blocks m (block h (firstn 64 bs)) (skipn 64 bs)
  | _, _ => h
  end.

Definition init : regs :=
  Regs 1732584193 4023233417 2562383102 271733878 3285377520.

Definition digest (msg : bytes) : bytes :=
  let p := pad (map byte_to_Z msg) in
  let r := blocks (length p) init p in
  map byte_of_Z (be32 (ra r) ++ be32 (rb r) ++ be32 (rc r) ++ be32 (rd r) ++ be32 (re r)).

End SHA1.

(** What [hmac.new] needs of a hash constructor. *)
Record digest_module : Type := DigestModule {
  digest_cons : bytes -> bytes;
  block_size : nat
}.

Definition sha1 : digest_module := DigestModule SHA1.digest 64.

Module HMAC.

Definition xor_with (c : Z) (key : bytes) : bytes :=
  map (fun b => byte_of_Z (Z.lxor (byte_to_Z b) c)) key.

(** [key.ljust(blocksize, b'\0')], after a key longer than a block
    has been replaced by its digest. *)
Definition block_key (d : digest_module) (key : bytes) : bytes :=
  let key' :=
    if (block_size d <? length key)%nat then digest_cons d key else key in
  key' ++ repeat x00 (block_size d - length key').

Definition digest (d : digest_module) (key msg : bytes) : bytes :=
  let k := block_key d key in
  digest_cons d (xor_with 92 k ++ digest_cons d (xor_with 54 k ++ msg)).

Definition hex_digit (n : Z) : ascii :=
  ascii_of_N (Z.to_N (if n <? 10 then 48 + n else 87 + n)).

Fixpoint hex (bs : bytes) : string :=
  match bs with
  | [] => EmptyString
  | b :: bs' =>
      let z := byte_to_Z b in
      String (hex_digit (Z.shiftr z 4)) (String (hex_digit (Z.land z 15)) (hex bs'))
  end.

(** [hmac.new(key, msg, d).hexdigest()]. *)
Definition hexdigest (d : digest_module) (key msg : bytes) : string :=
  hex (digest d key msg).

End HMAC.

(** ** Python values

    What [json.loads] produces: [None], booleans, integers, floats (IEEE
    754 binary64, as [spec_float]), strings, lists and dicts with string
    keys.  A dict is the list of its items in insertion order, with
    distinct keys; it is read through the first binding of a key. *)

#[local] Set Warnings "-register-all".

Inductive pyobj : Type :=
| PyNone
| PyBool (b : bool)
| PyInt (z : Z)
| PyFloat (f : spec_float)
| PyStr (s : string)
| PyList (l : list pyobj)
| PyDict (d : list (string * pyobj)).

Abbreviation dict := (list (string * pyobj)).

Module Dict.

Fixpoint get (k : string) (d : dict) : option pyobj :=
  match d with
  | [] => None
  | (k', v) :: d' => if String.eqb k' k then Some v else get k d'
  end.

Definition has (k : string) (d : dict) : bool :=
  match get k d with Some _ => true | None => false end.

(** [d[k] = v]: an existing key keeps its place, a new one goes last. *)
Fixpoint set (k : string) (v : pyobj) (d : dict) : dict :=
  match d with
  | [] => [(k, v)]
  | (k', v') :: d' =>
      if String.eqb k' k then (k', v) :: d' else (k', v') :: set k v d'
  end.

End Dict.

Module Py.

(** [bool(o)]. *)
Definition truthy (o : pyobj) : bool :=
  match o with
  | PyNone => false
  | PyBool b => b
  | PyInt z => negb (z =? 0)
  | PyFloat (S754_zero _) => false
  | PyFloat _ => true
  | PyStr EmptyString => false
  | PyStr _ => true
  | PyList [] => false
  | PyList _ => true
  | PyDict [] => false
  | PyDict _ => true
  end.

(** [a and b]: [b] is evaluated only when [a] is true. *)
Definition and_ (a : result pyobj) (b : result pyobj) : result pyobj :=
  (let* x := a in if truthy x then b else Ok x)%result.

(** [not b]. *)
Definition not_ (b : result pyobj) : result pyobj :=
  (let* x := b in Ok (PyBool (negb (truthy x))))%result.

(** [o.get(k)]: only a dict has the method. *)
Definition get (o : pyobj) (k : string) : result pyobj :=
  match o with
  | PyDict d =>
      match Dict.get k d with
      | Some v => Ok v
      | None => Ok PyNone
      end
  | _ => Raise AttributeError
  end.

(** [o[k]] for a string [k]. *)
Definition getitem (o : pyobj) (k : string) : result pyobj :=
  match o with
  | PyDict d =>
      match Dict.get k d with
      | Some v => Ok v
      | None => Raise KeyError
      end
  | _ => Raise TypeError
  end.

Definition index {A} (l : list A) (i : Z) : result A :=
  let n := Z.of_nat (length l) in
  let j := if i <? 0 then i + n else i in
  if (0 <=? j) && (j <? n)
  then match nth_error l (Z.to_nat j) with
       | Some x => Ok x
       | None => Raise IndexError
       end
  else Raise IndexError.

(** [o[i]] for an integer [i]. *)
Definition getitem_int (o : pyobj) (i : Z) : result pyobj :=
  match o with
  | PyList l => index l i
  | PyStr s => index (map PyStr (PyStr.chars s)) i
  | PyDict _ => Raise KeyError
  | _ => Raise TypeError
  end.

(** [len(o)]. *)
Definition len (o : pyobj) : result Z :=
  match o with
  | PyStr s => Ok (Z.of_nat (String.length s))
  | PyList l => Ok (Z.of_nat (length l))
  | PyDict d => Ok (Z.of_nat (length d))
  | _ => Raise TypeError
  end.

(** [o == s] for a string [s]. *)
Definition eq_str (o : pyobj) (s : string) : bool :=
  match o with
  | PyStr t => String.eqb t s
  | _ => false
  end.

(** [f == n] for a float and an integer: the exact values are compared. *)
Definition float_eq_Z (f : spec_float) (n : Z) : bool :=
  match f with
  | S754_zero _ => n =? 0
  | S754_finite s m e =>
      let v := if s then Z.neg m else Z.pos m in
      if 0 <=? e then v * 2 ^ e =? n else v =? n * 2 ^ (- e)
  | _ => false
  end.

(** [o == n] for an integer [n]; [True] and [False] are 1 and 0. *)
Definition eq_int (o : pyobj) (n : Z) : bool :=
  match o with
  | PyInt z => z =? n
  | PyBool b => (if b then 1 else 0) =? n
  | PyFloat f => float_eq_Z f n
  | _ => false
  end.

(** [o in l] for a list of integers. *)
Definition in_ints (o : pyobj) (l : list Z) : bool :=
  existsb (eq_int o) l.

(** [k in o] for a string [k]: a key of a dict, a substring of a
    string, an element of a list. *)
Definition contains (k : string) (o : pyobj) : result bool :=
  match o with
  | PyDict d => Ok (Dict.has k d)
  | PyStr s => Ok (PyStr.contains k s)
  | PyList l => Ok (existsb (fun x => eq_str x k) l)
  | _ => Raise TypeError
  end.

(** [o[k] = v] for a string [k]; the result is [o] after the store. *)
Definition setitem (o : pyobj) (k : string) (v : pyobj) : result pyobj :=
  match o with
  | PyDict d => Ok (PyDict (Dict.set k v d))
  | _ => Raise TypeError
  end.

Fixpoint mapM {A B} (f : A -> result B) (l : list A) : result (list B) :=
  match l with
  | [] => Ok []
  | x :: l' => (let* y := f x in let* ys := mapM f l' in Ok (y :: ys))%result
  end.

(** [for x in o: body(x)] where [body] may update [x] in place; the
    result is [o] after the loop, or the exception that ended it.  A
    list yields its elements, a string its characters and a dict its
    keys; characters and keys are strings, which no store can change. *)
Definition for_in_place (o : pyobj) (body : pyobj -> result pyobj)
  : result pyobj :=
  match o with
  | PyList l => (let* l' := mapM body l in Ok (PyList l'))%result
  | PyStr s =>
      (let* _ := mapM body (map PyStr (PyStr.chars s)) in Ok o)%result
  | PyDict d =>
      (let* _ := mapM body (map (fun kv => PyStr (fst kv)) d) in Ok o)%result
  | _ => Raise TypeError
  end.

End Py.

(** ** Signature verification *)

(** What [getattr(hashlib, name)] can be: a hash constructor, or another
    attribute of the module ([new], [algorithms_available], a
    variable-length hash, ...), on which [hmac.new] or [hexdigest]
    raises [e]. *)
Inductive hashlib_attr : Type :=
| HashConstructor (d : digest_module)
| NotAHash (e : exn).

Definition unpack2 {A} (xs : list A) : result (A * A) :=
  match xs with
  | [a; b] => Ok (a, b)
  | _ => Raise ValueError
  end.

Section SignatureVerifier.

(** The attributes of the [hashlib] module, by name. *)
Variable hashlib : string -> option hashlib_attr.

Definition getattr_hashlib (name : string) : result hashlib_attr :=
  match hashlib name with
  | Some a => Ok a
  | None => Raise AttributeError
  end.

Definition hmac_hexdigest (key msg : bytes) (digestmod : hashlib_attr)
  : result string :=
  match digestmod with
  | HashConstructor d => Ok (HMAC.hexdigest d key msg)
  | NotAHash e => Raise e
  end.

(** [FacebookInput.validate_hub_signature].  The [try] guards the
    split and the unpacking only; the [else] block runs outside it. *)
Definition validate_hub_signature
    (app_secret : string) (request_payload : bytes)
    (hub_signature_header : string) : result bool :=
  match unpack2 (PyStr.split "=" hub_signature_header) with
  | Raise e => if is_Exception e then Ok false else Raise e
  | Ok (hash_method, hub_signature) =>
      (let* digest_module := getattr_hashlib hash_method in
       let* generated_hash :=
         hmac_hexdigest (utf8 app_secret) request_payload digest_module in
       if String.eqb hub_signature generated_hash then Ok true
       else Ok false)%result
  end.

End SignatureVerifier.

(** A [hashlib] that offers [sha1] and the function [new], which is no
    hash constructor: enough to run the verifier on concrete requests. *)
Definition hashlib_sha1 (name : string) : option hashlib_attr :=
  if String.eqb name "sha1" then Some (HashConstructor sha1)
  else if String.eqb name "new" then Some (NotAHash TypeError)
  else None.

(** ** Effects

    The calls the channel makes on its collaborators, in the order it
    makes them.  [print] and the logger take a format and its argument;
    the text they render is not modelled. *)

Record MessengerClient : Type := { access_token : string }.

(** [MessengerBot(client)], the output channel handed to the handler. *)
Record MessengerBot : Type := { messenger_client : MessengerClient }.

(** The arguments of the call [UserMessage(text, out_channel, sender_id,
    input_channel=name)]; the class belongs to [rasa_core.channels.channel]. *)
Record UserMessage : Type := {
  text : pyobj;
  output_channel : MessengerBot;
  sender_id : pyobj;
  input_channel : string
}.

(** The elements of the [fbmessenger] library that the bot builds; the
    client receives their [to_dict()]. *)
Inductive element : Type :=
| FBText (text : string)
| Image (url : pyobj).

Inductive payload : Type :=
| ToDict (e : element)
| Payload (p : pyobj).

Inductive event : Type :=
| Print (fmt : string) (arg : pyobj)
| LogInfo (msg : string)
| LogWarning (fmt : string) (arg : option pyobj)
| LogException (msg : string) (e : exn)
| ClientSend (p : payload) (recipient : pyobj) (tag : string)
| ClientPassThreadControl (app_id metadata recipient : pyobj)
| ClientTakeThreadControl (metadata recipient : pyobj)
| OnNewMessage (um : UserMessage).

(** The separator ["\n\n"] of [send_text_message]. *)
Definition double_newline : string := String "010" (String "010" EmptyString).

Declare Scope monad_scope.
Delimit Scope monad_scope with monad.

Section Effects.

(** The state of the downstream handler. *)
Context {HS : Type}.

Definition M (A : Type) : Type := HS -> result A * list event * HS.

Definition ret {A} (a : A) : M A := fun s => (Ok a, [], s).

Definition bind {A B} (m : M A) (k : A -> M B) : M B :=
  fun s =>
    match m s with
    | (Ok a, tr, s') =>
        match k a s' with
        | (r, tr', s'') => (r, tr ++ tr', s'')
        end
    | (Raise e, tr, s') => (Raise e, tr, s')
    end.

Definition emit (e : event) : M unit := fun s => (Ok tt, [e], s).

Definition lift {A} (r : result A) : M A := fun s => (r, [], s).

(** [try: body / except Exception: handler]. *)
Definition try_except {A} (body : M A) (handler : exn -> M A) : M A :=
  fun s =>
    match body s with
    | (Raise e, tr, s') =>
        if is_Exception e
        then match handler e s' with
             | (r, tr', s'') => (r, tr ++ tr', s'')
             end
        else (Raise e, tr, s')
    | ok => ok
    end.

Fixpoint for_each {A} (l : list A) (body : A -> M unit) : M unit :=
  match l with
  | [] => ret tt
  | x :: l' => bind (body x) (fun _ => for_each l' body)
  end.

End Effects.

Arguments M HS A : clear implicits.

Notation "'let*' x ':=' m 'in' k" := (bind m (fun x => k))
  (at level 10, x name, m at level 100, k at level 200) : monad_scope.
Notation "m ;; k" := (bind m (fun _ => k))
  (at level 100, right associativity) : monad_scope.

Local Open Scope monad_scope.

Section Channel.

Context {HS : Type}.

(** [str(o)], as [str.format] renders a value. *)
Variable py_str : pyobj -> string.

(** *** Messenger *)

(** The fields [__init__] sets, and [get_user_id], inherited from
    [BaseMessenger]: the sender id of the event the library is
    handling, or the exception that reading it raises. *)
Record Messenger : Type := {
  page_access_token : string;
  on_new_message : UserMessage -> HS -> option exn * HS;
  thread_control_authorized : list Z;
  get_user_id : result pyobj
}.

Definition client (self : Messenger) : MessengerClient :=
  {| access_token := page_access_token self |}.

Definition name : string := "facebook".

Definition _is_audio_message (message : pyobj) : result pyobj :=
  Py.and_ (Py.get message "message")
    (Py.and_
       (let* m := Py.getitem message "message" in Py.get m "attachments")%result
       (let* m := Py.getitem message "message" in
        let* a := Py.getitem m "attachments" in
        let* a0 := Py.getitem_int a 0 in
        let* t := Py.getitem a0 "type" in
        Ok (PyBool (Py.eq_str t "audio")))%result).

Definition _is_user_message (message : pyobj) : result pyobj :=
  Py.and_ (Py.get message "message")
    (Py.and_
       (let* m := Py.getitem message "message" in Py.get m "text")%result
       (Py.not_
          (let* m := Py.getitem message "message" in Py.get m "is_echo")%result)).

Definition _is_user_location (message : pyobj) : result pyobj :=
  Py.and_ (Py.get message "message")
    (Py.and_
       (let* m := Py.getitem message "message" in Py.get m "attachments")%result
       (let* m := Py.getitem message "message" in
        let* a := Py.getitem m "attachments" in
        let* a0 := Py.getitem_int a 0 in
        let* t := Py.getitem a0 "type" in
        Ok (PyBool (Py.eq_str t "location")))%result).

Definition _is_request_thread_control (message : pyobj) : result pyobj :=
  Py.and_ (Py.get message "request_thread_control")
    (let* r := Py.getitem message "request_thread_control" in
     Py.get r "requested_owner_app_id")%result.

Definition _is_pass_thread_control (message : pyobj) : result pyobj :=
  Py.and_ (Py.get message "pass_thread_control")
    (let* r := Py.getitem message "pass_thread_control" in
     Py.get r "new_owner_app_id")%result.

(** The call [self.on_new_message(user_msg)]. *)
Definition call_on_new_message (self : Messenger) (user_msg : UserMessage)
  : M HS unit :=
  fun s =>
    match on_new_message self user_msg s with
    | (None, s') => (Ok tt, [OnNewMessage user_msg], s')
    | (Some e, s') => (Raise e, [OnNewMessage user_msg], s')
    end.

Definition _handle_user_message (self : Messenger) (text sender_id : pyobj)
  : M HS unit :=
  emit (Print "Handling User Message: {}" text) ;;
  let out_channel := {| messenger_client := client self |} in
  let user_msg :=
    {| text := text; output_channel := out_channel;
       sender_id := sender_id; input_channel := name |} in
  try_except
    (call_on_new_message self user_msg)
    (fun e =>
       emit (LogException
               "Exception when trying to handle webhook for facebook message."
               e)).

(** The text [message] settles on, or [None] when it has returned. *)
Definition message_text (self : Messenger) (message : pyobj)
  : M HS (option pyobj) :=
  let* c := lift (_is_user_message message) in
  if Py.truthy c then
    let* text :=
      lift (let* m := Py.getitem message "message" in
            Py.getitem m "text")%result in
    let* n :=
      lift (let* m := Py.getitem message "message" in
            let* t := Py.getitem m "text" in
            Py.len t)%result in
    if n >? 512 then
      let* uid := lift (get_user_id self) in
      _handle_user_message self (PyStr "/long_text") uid ;;
      ret None
    else ret (Some text)
  else
    let* c := lift (_is_audio_message message) in
    if Py.truthy c then
      let* attachment :=
        lift (let* m := Py.getitem message "message" in
              let* a := Py.getitem m "attachments" in
              Py.getitem_int a 0)%result in
      let* text :=
        lift (let* p := Py.getitem attachment "payload" in
              Py.getitem p "url")%result in
      ret (Some text)
    else
      let* c := lift (_is_user_location message) in
      if Py.truthy c then
        let* attachment :=
          lift (let* m := Py.getitem message "message" in
                let* a := Py.getitem m "attachments" in
                Py.getitem_int a 0)%result in
        let* coordinates :=
          lift (let* p := Py.getitem attachment "payload" in
                Py.getitem p "coordinates")%result in
        let* lat := lift (Py.getitem coordinates "lat") in
        let* long := lift (Py.getitem coordinates "long") in
        ret (Some (PyStr (py_str lat +:+ " " +:+ py_str long)))
      else
        emit (LogWarning
                "Received a message from facebook that we can not handle. Message: {}"
                (Some message)) ;;
        ret None.

(** [Messenger.message] *)
Definition message (self : Messenger) (message : pyobj) : M HS unit :=
  emit (Print "Message: {}" message) ;;
  let* t := message_text self message in
  match t with
  | None => ret tt
  | Some text =>
      let* uid := lift (get_user_id self) in
      _handle_user_message self text uid
  end.

Definition postback (self : Messenger) (message : pyobj) : M HS unit :=
  emit (Print "Handling postback: {}" message) ;;
  let* text :=
    lift (let* p := Py.getitem message "postback" in
          Py.getitem p "payload")%result in
  let* uid := lift (get_user_id self) in
  _handle_user_message self text uid.

Definition delivery (self : Messenger) (message : pyobj) : M HS unit := ret tt.
Definition read (self : Messenger) (message : pyobj) : M HS unit := ret tt.
Definition account_linking (self : Messenger) (message : pyobj) : M HS unit :=
  ret tt.
Definition optin (self : Messenger) (message : pyobj) : M HS unit := ret tt.

(** *** MessengerBot *)

Definition _recipient_json (recipient_id : pyobj) : pyobj :=
  PyDict [("sender", PyDict [("id", recipient_id)])].

Definition send (recipient_id : pyobj) (e : element) : M HS unit :=
  emit (ClientSend (ToDict e)
          (PyDict [("sender", PyDict [("id", recipient_id)])]) "RESPONSE").

Definition send_text_message (recipient_id : pyobj) (message : string)
  : M HS unit :=
  emit (LogInfo ("Sending message: " +:+ message)) ;;
  for_each (PyStr.split double_newline message)
    (fun message_part => send recipient_id (FBText message_part)).

Definition send_image_url (recipient_id image_url : pyobj) : M HS unit :=
  send recipient_id (Image image_url).

Definition _add_postback_info (buttons : pyobj) : result pyobj :=
  Py.for_in_place buttons
    (fun button =>
       let* c := Py.contains "type" button in
       if negb c then Py.setitem button "type" (PyStr "postback")
       else Ok button)%result.

Definition _add_text_info (quick_replies : pyobj) : result pyobj :=
  Py.for_in_place quick_replies
    (fun quick_reply =>
       let* c := Py.contains "content_type" quick_reply in
       if negb c then Py.setitem quick_reply "content_type" (PyStr "text")
       else Ok quick_reply)%result.

Definition button_template (text : string) (buttons : pyobj) : pyobj :=
  PyDict
    [("attachment",
      PyDict
        [("type", PyStr "template");
         ("payload",
          PyDict
            [("template_type", PyStr "button");
             ("text", PyStr text);
             ("buttons", buttons)])])].

Definition send_text_with_buttons
    (recipient_id : pyobj) (text : string) (buttons : pyobj) : M HS unit :=
  let* n := lift (Py.len buttons) in
  if n >? 3 then
    emit (LogWarning
            "Facebook API currently allows only up to 3 buttons. If you add more, all will be ignored."
            None) ;;
    send_text_message recipient_id text
  else
    let* buttons := lift (_add_postback_info buttons) in
    emit (ClientSend (Payload (button_template text buttons))
            (PyDict [("sender", PyDict [("id", recipient_id)])]) "RESPONSE").

Definition send_quick_replies
    (recipient_id text quick_replies : pyobj) : M HS unit :=
  let* quick_replies := lift (_add_text_info quick_replies) in
  emit (ClientSend
          (Payload (PyDict [("text", text); ("quick_replies", quick_replies)]))
          (PyDict [("sender", PyDict [("id", recipient_id)])]) "RESPONSE").

Definition send_pass_thread_control
    (recipient_id app_id metadata : pyobj) : M HS unit :=
  emit (Print "Recipient ID: {}" recipient_id) ;;
  emit (ClientPassThreadControl app_id metadata
          (PyDict [("recipient", PyDict [("id", recipient_id)])])).

Definition send_take_thread_control
    (recipient_id metadata : pyobj) : M HS unit :=
  emit (Print "Take Control - Recipient ID: {}" recipient_id) ;;
  emit (ClientTakeThreadControl metadata
          (PyDict [("recipient", PyDict [("id", recipient_id)])])).

Definition generic_template (elements : pyobj) : pyobj :=
  PyDict
    [("attachment",
      PyDict
        [("type", PyStr "template");
         ("payload",
          PyDict
            [("template_type", PyStr "generic");
             ("elements", elements)])])].

(** The loop of [send_custom_message]: the buttons of each element are
    completed in place, so the element holds the completed list. *)
Definition add_postback_info_elements (elements : pyobj) : result pyobj :=
  Py.for_in_place elements
    (fun element =>
       let* buttons := Py.getitem element "buttons" in
       let* buttons := _add_postback_info buttons in
       Py.setitem element "buttons" buttons)%result.

Definition send_custom_message (recipient_id elements : pyobj) : M HS unit :=
  let* elements := lift (add_postback_info_elements elements) in
  emit (ClientSend (Payload (generic_template elements))
          (_recipient_json recipient_id) "RESPONSE").

(** *** Handover *)

Definition handover (self : Messenger) (message : pyobj) : M HS unit :=
  emit (Print "Handover: {}" message) ;;
  let* c := lift (_is_request_thread_control message) in
  if Py.truthy c then
    let* app_id :=
      lift (let* r := Py.getitem message "request_thread_control" in
            Py.getitem r "requested_owner_app_id")%result in
    if negb (Py.in_ints app_id (thread_control_authorized self)) then
      emit (LogWarning
              "Received a request thread control from facebookfrom an app that is not authorized: {}"
              (Some message))
    else
      let* uid := lift (get_user_id self) in
      let* app_id :=
        lift (let* r := Py.getitem message "request_thread_control" in
              Py.getitem r "requested_owner_app_id")%result in
      let* metadata :=
        lift (let* r := Py.getitem message "request_thread_control" in
              Py.getitem r "metadata")%result in
      send_pass_thread_control uid app_id metadata ;;
      let* uid := lift (get_user_id self) in
      _handle_user_message self (PyStr "/passed_thread_control") uid
  else
    let* c := lift (_is_pass_thread_control message) in
    if Py.truthy c then
      let* uid := lift (get_user_id self) in
      _handle_user_message self (PyStr "/reconnect_user") uid
    else ret tt.

End Channel.

(** ** The webhook *)

(** The methods [BaseMessenger.handle] can call on the messenger. *)
Inductive callback : Type :=
| OnMessage
| OnPostback
| OnDelivery
| OnRead
| OnAccountLinking
| OnOptin
| OnHandover.

(** One call made by [handle]: the method, the event passed to it, and
    what [get_user_id] answers while that event is being handled. *)
Record dispatched : Type := {
  callback_of : callback;
  event_of : pyobj;
  user_id_of : result pyobj
}.

Record FacebookInput : Type := {
  fb_verify : string;
  fb_secret : string;
  fb_access_token : string;
  fb_thread_control_authorized : list Z
}.

(** What the POST endpoint reads of the request: the [X-Hub-Signature]
    header, the raw body, and the outcome of [get_json(force=True)]. *)
Record Request : Type := {
  hub_signature : option string;
  data : bytes;
  get_json : result pyobj
}.

Section Webhook.

Context {HS : Type}.

Variable py_str : pyobj -> string.
Variable hashlib : string -> option hashlib_attr.

(** [BaseMessenger.handle] belongs to the fbmessenger library: it
    walks the payload and calls the messenger's methods on the events
    it finds.  [dispatch] gives, for a payload, the calls it makes in
    order and the exception it ends with, if any. *)
Variable dispatch : pyobj -> list dispatched * option exn.

Definition invoke (self : Messenger) (d : dispatched) : M HS unit :=
  let self :=
    {| page_access_token := page_access_token self;
       on_new_message := on_new_message self;
       thread_control_authorized := thread_control_authorized self;
       get_user_id := user_id_of d |} in
  match callback_of d with
  | OnMessage => message py_str self (event_of d)
  | OnPostback => postback self (event_of d)
  | OnDelivery => delivery self (event_of d)
  | OnRead => read self (event_of d)
  | OnAccountLinking => account_linking self (event_of d)
  | OnOptin => optin self (event_of d)
  | OnHandover => handover self (event_of d)
  end.

Definition handle (self : Messenger) (payload : pyobj) : M HS unit :=
  for_each (fst (dispatch payload)) (invoke self) ;;
  match snd (dispatch payload) with
  | None => ret tt
  | Some e => lift (Raise e)
  end.

(** [x or '']. *)
Definition or_empty (x : option string) : string :=
  match x with
  | Some (String c s) => String c s
  | _ => EmptyString
  end.

(** The POST route of [FacebookInput.blueprint]. *)
Definition webhook
    (self : FacebookInput)
    (on_new_message : UserMessage -> HS -> option exn * HS)
    (request : Request) : M HS string :=
  let signature := or_empty (hub_signature request) in
  let* valid :=
    lift (validate_hub_signature hashlib (fb_secret self) (data request)
            signature) in
  if negb valid then
    emit (LogWarning
            "Wrong fb secret! Make sure this matches the secret in your facebook app settings"
            None) ;;
    ret "not validated"
  else
    let messenger :=
      {| page_access_token := fb_access_token self;
         on_new_message := on_new_message;
         thread_control_authorized := fb_thread_control_authorized self;
         get_user_id := Raise KeyError |} in
    let* json := lift (get_json request) in
    handle messenger json ;;
    ret "success".

End Webhook.

(** ** Observations on a run *)

(** The messages handed to the downstream handler, in order. *)
Definition forwards (tr : list event) : list UserMessage :=
  flat_map (fun e => match e with OnNewMessage um => [um] | _ => [] end) tr.

(** The calls made on the messenger client, in order. *)
Definition client_calls (tr : list event) : list event :=
  List.filter
    (fun e =>
       match e with
       | ClientSend _ _ _ | ClientPassThreadControl _ _ _
       | ClientTakeThreadControl _ _ => true
       | _ => false
       end) tr.

Definition warnings (tr : list event) : list event :=
  List.filter (fun e => match e with LogWarning _ _ => true | _ => false end) tr.

(** The payloads handed to [messenger_client.send], in order. *)
Definition sent_payloads (tr : list event) : list payload :=
  flat_map (fun e => match e with ClientSend p _ _ => [p] | _ => [] end) tr.

(** A payload whose attachment is a button template.  The elements of
    the library ([FBText], [Image]) are none. *)
Definition is_button_template (p : payload) : bool :=
  match p with
  | ToDict _ => false
  | Payload o =>
      match (let* a := Py.getitem o "attachment" in
             let* q := Py.getitem a "payload" in
             Py.getitem q "template_type")%result with
      | Ok t => Py.eq_str t "button"
      | Raise _ => false
      end
  end.

(** What a defaulting loop leaves of an entry: the entry itself when it
    has [key], the entry with [key] set to [value] otherwise. *)
Definition with_default (key : string) (value : pyobj) (entry : dict) : dict :=
  if Dict.has key entry then entry else Dict.set key value entry.

(** [b'] has the type of [b], or ["postback"] when [b] has none. *)
Definition type_defaulted (b b' : dict) : Prop :=
  match Dict.get "type" b with
  | Some v => Dict.get "type" b' = Some v
  | None => Dict.get "type" b' = Some (PyStr "postback")
  end.

(** [e'] is [e] after the loop of [send_custom_message]: its buttons
    are those of [e] after [_add_postback_info]. *)
Definition buttons_completed (e e' : dict) : Prop :=
  exists b b' : pyobj,
    Dict.get "buttons" e = Some b
    /\ _add_postback_info b = Ok b'
    /\ e' = Dict.set "buttons" b' e.

(** Every item of [b] is an item of [b']. *)
Definition keeps_items (b b' : dict) : Prop :=
  forall (k : string) (v : pyobj), Dict.get k b = Some v -> Dict.get k b' = Some v.

(** The message the channel builds for a text and a sender. *)
Definition user_message {HS : Type} (self : @Messenger HS)
    (text sender_id : pyobj) : UserMessage :=
  {| text := text;
     output_channel := {| messenger_client := client self |};
     sender_id := sender_id;
     input_channel := name |}.

(** The handler raises nothing but instances of [Exception]. *)
Definition raises_only_Exception {HS : Type} (self : @Messenger HS) : Prop :=
  forall (um : UserMessage) (s : HS) (e : exn),
    fst (on_new_message self um s) = Some e -> is_Exception e = true.

(** *** Events that carry the fields [message] reads by subscript *)

Definition has_len (o : pyobj) : bool :=
  match Py.len o with
  | Ok _ => true
  | Raise _ => false
  end.

(** A first attachment: an object with a [type]; an audio attachment
    has [payload.url], a location has [payload.coordinates] with [lat]
    and [long]. *)
Definition has_url (d : dict) : bool :=
  match Dict.get "payload" d with
  | Some (PyDict p) => Dict.has "url" p
  | _ => false
  end.

Definition has_coordinates (d : dict) : bool :=
  match Dict.get "payload" d with
  | Some (PyDict p) =>
      match Dict.get "coordinates" p with
      | Some (PyDict c) => Dict.has "lat" c && Dict.has "long" c
      | _ => false
      end
  | _ => false
  end.

Definition attachment_well_formed (a0 : pyobj) : bool :=
  match a0 with
  | PyDict d =>
      match Dict.get "type" d with
      | Some t =>
          (negb (Py.eq_str t "audio") || has_url d)
          && (negb (Py.eq_str t "location") || has_coordinates d)
      | None => false
      end
  | _ => false
  end.

(** The [message] entry of an event: false, or an object whose [text]
    is absent, false or sized, and whose [attachments] is absent, false
    or a list with a well-formed first element. *)
Definition message_well_formed (m : pyobj) : bool :=
  match m with
  | PyDict d =>
      match Dict.get "text" d with
      | Some t => negb (Py.truthy t) || has_len t
      | None => true
      end
      &&
      match Dict.get "attachments" d with
      | Some (PyList (a0 :: _)) => attachment_well_formed a0
      | Some a => negb (Py.truthy a)
      | None => true
      end
  | _ => negb (Py.truthy m)
  end.

Definition event_well_formed (ev : pyobj) : bool :=
  match ev with
  | PyDict d =>
      match Dict.get "message" d with
      | Some m => message_well_formed m
      | None => true
      end
  | _ => false
  end.

(** How [message] classifies an event that it handles without raising:
    the predicates that answered, and the fields read after them. *)
Inductive classified (ev : pyobj) : Prop :=
  | UserText (c t : pyobj) (n : Z)
      (H1 : _is_user_message ev = Ok c) (T1 : Py.truthy c = true)
      (Ht : (let* m := Py.getitem ev "message" in
             Py.getitem m "text")%result = Ok t)
      (Hn : Py.len t = Ok n)
  | Audio (c1 c2 a0 url : pyobj)
      (H1 : _is_user_message ev = Ok c1) (T1 : Py.truthy c1 = false)
      (H2 : _is_audio_message ev = Ok c2) (T2 : Py.truthy c2 = true)
      (Ha : (let* m := Py.getitem ev "message" in
             let* a := Py.getitem m "attachments" in
             Py.getitem_int a 0)%result = Ok a0)
      (Hu : (let* p := Py.getitem a0 "payload" in
             Py.getitem p "url")%result = Ok url)
  | Location (c1 c2 c3 a0 co lat long : pyobj)
      (H1 : _is_user_message ev = Ok c1) (T1 : Py.truthy c1 = false)
      (H2 : _is_audio_message ev = Ok c2) (T2 : Py.truthy c2 = false)
      (H3 : _is_user_location ev = Ok c3) (T3 : Py.truthy c3 = true)
      (Ha : (let* m := Py.getitem ev "message" in
             let* a := Py.getitem m "attachments" in
             Py.getitem_int a 0)%result = Ok a0)
      (Hco : (let* p := Py.getitem a0 "payload" in
              Py.getitem p "coordinates")%result = Ok co)
      (Hlat : Py.getitem co "lat" = Ok lat)
      (Hlong : Py.getitem co "long" = Ok long)
  | Unhandled (c1 c2 c3 : pyobj)
      (H1 : _is_user_message ev = Ok c1) (T1 : Py.truthy c1 = false)
      (H2 : _is_audio_message ev = Ok c2) (T2 : Py.truthy c2 = false)
      (H3 : _is_user_location ev = Ok c3) (T3 : Py.truthy c3 = false).

(** A call of [message] that [handle] makes on an event [message]
    classifies, while [get_user_id] answers. *)
Definition message_call (d : dispatched) : Prop :=
  callback_of d = OnMessage
  /\ classified (event_of d)
  /\ exists uid : pyobj, user_id_of d = Ok uid.

(** ** Updates in place

    The defaulting loops change the dicts of their caller.  Here the
    dicts live in a store and a list of buttons is a list of references
    into it, in which a reference may occur more than once. *)

Module InPlace.

Fixpoint add_default (key : string) (value : pyobj)
    (entries : list positive) (h : gmap positive dict) : gmap positive dict :=
  match entries with
  | [] => h
  | r :: entries' =>
      match h !! r with
      | Some entry =>
          if negb (Dict.has key entry)
          then add_default key value entries'
                 (<[r := Dict.set key value entry]> h)
          else add_default key value entries' h
      | None => add_default key value entries' h
      end
  end.

Definition _add_postback_info (buttons : list positive)
  : gmap positive dict -> gmap positive dict :=
  add_default "type" (PyStr "postback") buttons.

Definition _add_text_info (quick_replies : list positive)
  : gmap positive dict -> gmap positive dict :=
  add_default "content_type" (PyStr "text") quick_replies.

(** The list as Python shows it: the dicts its references point to. *)
Definition read (h : gmap positive dict) (entries : list positive)
  : list (option dict) :=
  map (fun r => h !! r) entries.

End InPlace.

(** *** Concrete collaborators, to run the channel on examples *)

(** [str] on strings; the rendering of the other values is not used by
    the examples. *)
Definition str_of_text (o : pyobj) : string :=
  match o with
  | PyStr s => s
  | _ => EmptyString
  end.

Definition text_of_length (n : nat) : string :=
  string_of_list_ascii (repeat "a"%char n).

(** A handler that accepts every message, and one that fails on every
    message; the state counts the calls. *)
Definition accepting_handler (um : UserMessage) (calls : nat)
  : option exn * nat := (None, S calls).

Definition failing_handler (um : UserMessage) (calls : nat)
  : option exn * nat := (Some (UserException "ActionFailed"), S calls).

(** A handler that ends the interpreter, as [sys.exit()] does. *)
Definition exiting_handler (um : UserMessage) (calls : nat)
  : option exn * nat := (Some SystemExit, S calls).

Definition example_messenger
    (handler : UserMessage -> nat -> option exn * nat) : @Messenger nat :=
  {| page_access_token := "token";
     on_new_message := handler;
     thread_control_authorized := [263902037430900];
     get_user_id := Ok (PyStr "1254459154682919") |}.

(** A payload is dispatched as one message event when it is an object
    with a [message] entry, and not at all otherwise. *)
Definition example_dispatch (payload : pyobj)
  : list dispatched * option exn :=
  match Py.getitem payload "message" with
  | Ok _ =>
      ([{| callback_of := OnMessage; event_of := payload;
           user_id_of := Ok (PyStr "1254459154682919") |}], None)
  | Raise _ => ([], None)
  end.

Definition example_input : FacebookInput :=
  {| fb_verify := "verify";
     fb_secret := "key";
     fb_access_token := "token";
     fb_thread_control_authorized := [263902037430900] |}.

(** A request signed with the secret of [example_input]; the body is
    parsed by the framework, whose outcome [json] stands for. *)
Definition example_request (json : pyobj) : Request :=
  {| hub_signature := Some "sha1=de7c9b85b8b78aa6bc8a7a36f70a90701c9db4d9";
     data := utf8 "The quick brown fox jumps over the lazy dog";
     get_json := Ok json |}.

(** ** Further observations *)

(** No occurrence of [sep] in [cur +:+ s] starts inside [cur]: what
    [PyStr.split_aux] knows of the piece it is reading. *)
Definition starts_clean (sep cur s : string) : Prop :=
  forall u v : string,
    cur = u +:+ v -> v <> "" -> String.prefix sep (v +:+ s) = false.

(** The digits of [hexdigest]. *)
Definition is_lower_hex (c : ascii) : bool :=
  let n := Z.of_N (N_of_ascii c) in
  ((48 <=? n) && (n <=? 57)) || ((97 <=? n) && (n <=? 102)).

(** The methods of the messenger that do nothing. *)
Definition is_receipt (c : callback) : bool :=
  match c with
  | OnDelivery | OnRead | OnAccountLinking | OnOptin => true
  | _ => false
  end.

(** The calls on the client and on the handler, in order. *)
Definition interactions (tr : list event) : list event :=
  List.filter
    (fun e =>
       match e with
       | ClientSend _ _ _ | ClientPassThreadControl _ _ _
       | ClientTakeThreadControl _ _ | OnNewMessage _ => true
       | _ => false
       end) tr.

(** [b'] has the content type of [b], or ["text"] when [b] has none. *)
Definition content_type_defaulted (b b' : dict) : Prop :=
  match Dict.get "content_type" b with
  | Some v => Dict.get "content_type" b' = Some v
  | None => Dict.get "content_type" b' = Some (PyStr "text")
  end.

(** A message of the facebook channel that answers through the page
    with this access token. *)
Definition from_page (token : string) (um : UserMessage) : Prop :=
  input_channel um = "facebook"
  /\ access_token (messenger_client (output_channel um)) = token.

(** What a defaulting loop on [key] leaves of an entry [x]: [x'] holds
    [key], and is [x] itself when [x] held it before. *)
Definition defaulted (key : string) (x x' : pyobj) : Prop :=
  Py.contains key x' = Ok true
  /\ (Py.contains key x = Ok true -> x' = x).

(** A payload dispatched as a delivery receipt followed by a read
    receipt, during which no sender id can be read. *)
Definition receipt_dispatch (payload : pyobj)
  : list dispatched * option exn :=
  ([{| callback_of := OnDelivery; event_of := payload;
       user_id_of := Raise KeyError |};
    {| callback_of := OnRead; event_of := payload;
       user_id_of := Raise KeyError |}],
   None).

(** A messenger for which no sender id can be read. *)
Definition anonymous_messenger
    (handler : UserMessage -> nat -> option exn * nat) : @Messenger nat :=
  {| page_access_token := "token";
     on_new_message := handler;
     thread_control_authorized := [263902037430900];
     get_user_id := Raise KeyError |}.

(** * Properties *)

(** ** Test vectors

    SHA-1 on the examples of FIPS 180 and HMAC-SHA1 on known digests. *)

Example sha1_abc :
  HMAC.hex (SHA1.digest (utf8 "abc"))
  = "a9993e364706816aba3e25717850c26c9cd0d89d".
Proof. vm_compute. reflexivity. Qed.

Example sha1_two_blocks :
  HMAC.hex
    (SHA1.digest
       (utf8 "abcdbcdecdefdefgefghfghighijhijkijkljklmklmnlmnomnopnopq"))
  = "84983e441c3bd26ebaae4aa1f95129e5e54670f1".
Proof. vm_compute. reflexivity. Qed.

Example hmac_sha1_fox :
  HMAC.hexdigest sha1 (utf8 "key")
    (utf8 "The quick brown fox jumps over the lazy dog")
  = "de7c9b85b8b78aa6bc8a7a36f70a90701c9db4d9".
Proof. vm_compute. reflexivity. Qed.

Example hmac_sha1_empty :
  HMAC.hexdigest sha1 [] [] = "fbdb1d1b18aa6c08324b7d64b71fb76370690e1d".
Proof. vm_compute. reflexivity. Qed.

Example split_paragraphs :
  PyStr.split double_newline ("a" +:+ double_newline +:+ "b") = ["a"; "b"].
Proof. reflexivity. Qed.

Example split_overlap : PyStr.split "aa" "aaaxaaaa" = [""; "ax"; ""; ""].
Proof. reflexivity. Qed.


(** ** Strings *)

Module PyStrFacts.

Lemma append_cons (c : ascii) (s t : string) :
  String c s +:+ t = String c (s +:+ t).
Proof. reflexivity. Qed.

Lemma append_nil_l (s : string) : "" +:+ s = s.
Proof. reflexivity. Qed.

Lemma append_nil_r (s : string) : s +:+ "" = s.
Proof.
  induction s as [|c s IH]; [reflexivity |].
  now rewrite append_cons, IH.
Qed.

Lemma append_assoc (a b c : string) : (a +:+ b) +:+ c = a +:+ (b +:+ c).
Proof.
  induction a as [|x a IH]; [reflexivity |].
  now rewrite !append_cons, IH.
Qed.

Lemma prefix_drop (p s : string) :
  String.prefix p s = true -> p +:+ PyStr.drop (String.length p) s = s.
Proof.
  revert s. induction p as [|a p IH]; intros s H.
  - reflexivity.
  - destruct s as [|b s]; simpl in H; [discriminate |].
    destruct (ascii_dec a b) as [->|]; [| discriminate].
    cbn [String.length PyStr.drop]. now rewrite append_cons, (IH s H).
Qed.

Lemma split_aux_not_nil (sep : string) (k : nat) (cur s : string) :
  PyStr.split_aux sep k cur s <> [].
Proof.
  revert k cur. induction s as [|c s IH]; intros k cur;
    cbn [PyStr.split_aux].
  - discriminate.
  - destruct k as [|k]; [| apply IH].
    destruct (String.prefix sep (String c s)); [discriminate | apply IH].
Qed.

Lemma join_cons (sep p : string) (ps : list string) :
  ps <> [] -> PyStr.join sep (p :: ps) = p +:+ sep +:+ PyStr.join sep ps.
Proof. intros H. destruct ps; [congruence | reflexivity]. Qed.

(** Joining the pieces of a split gives the text back. *)
Lemma join_split_aux (a : ascii) (sep' : string) (k : nat) (cur s : string) :
  PyStr.join (String a sep') (PyStr.split_aux (String a sep') k cur s)
  = cur +:+ PyStr.drop k s.
Proof.
  revert k cur. induction s as [|c s IH]; intros k cur.
  - destruct k; cbn [PyStr.split_aux PyStr.drop PyStr.join];
      now rewrite append_nil_r.
  - destruct k as [|k].
    + cbn [PyStr.split_aux PyStr.drop].
      destruct (String.prefix (String a sep') (String c s)) eqn:Hp.
      * rewrite join_cons by apply split_aux_not_nil.
        rewrite IH. cbn [String.length]. rewrite Nat.sub_1_r. cbn [Nat.pred].
        simpl in Hp. destruct (ascii_dec a c) as [->|]; [| discriminate].
        now rewrite append_nil_l, append_cons, (prefix_drop _ _ Hp).
      * rewrite IH. cbn [PyStr.drop]. now rewrite append_assoc.
    + cbn [PyStr.split_aux PyStr.drop]. apply IH.
Qed.

Lemma join_split (a : ascii) (sep' s : string) :
  PyStr.join (String a sep') (PyStr.split (String a sep') s) = s.
Proof. unfold PyStr.split. now rewrite join_split_aux. Qed.

(** A text without the separator is one piece. *)
Lemma split_aux_absent (sep cur s : string) :
  PyStr.contains sep s = false ->
  PyStr.split_aux sep 0 cur s = [cur +:+ s].
Proof.
  revert cur. induction s as [|c s IH]; intros cur H.
  - cbn [PyStr.split_aux]. now rewrite append_nil_r.
  - cbn [PyStr.contains] in H. apply orb_false_iff in H as [Hp Hc].
    cbn [PyStr.split_aux]. rewrite Hp, (IH _ Hc), append_assoc.
    reflexivity.
Qed.

Lemma split_absent (sep s : string) :
  PyStr.contains sep s = false -> PyStr.split sep s = [s].
Proof. intros H. unfold PyStr.split. now rewrite split_aux_absent. Qed.

(** A split into one piece returns the text itself. *)
Lemma split_singleton (a : ascii) (sep' s x : string) :
  PyStr.split (String a sep') s = [x] -> x = s.
Proof.
  intros H. pose proof (join_split a sep' s) as J. rewrite H in J.
  exact J.
Qed.

End PyStrFacts.

(** ** Signature verification *)

Module HexFacts.

Lemma contains_eq_cons (c : ascii) (s : string) :
  PyStr.contains "=" (String c s)
  = (if ascii_dec "=" c then true else false) || PyStr.contains "=" s.
Proof.
  cbn [PyStr.contains String.prefix].
  destruct (ascii_dec "=" c); [| reflexivity].
  now destruct s.
Qed.

Lemma hex_digit_high (b : byte) :
  HMAC.hex_digit (Z.shiftr (byte_to_Z b) 4) <> "="%char.
Proof. destruct b; vm_compute; discriminate. Qed.

Lemma hex_digit_low (b : byte) :
  HMAC.hex_digit (Z.land (byte_to_Z b) 15) <> "="%char.
Proof. destruct b; vm_compute; discriminate. Qed.

(** A hexadecimal digest holds no ['=']. *)
Lemma hex_no_equals (bs : bytes) : PyStr.contains "=" (HMAC.hex bs) = false.
Proof.
  induction bs as [|b bs IH]; [reflexivity |].
  cbn [HMAC.hex]. rewrite !contains_eq_cons, IH.
  destruct (ascii_dec "=" (HMAC.hex_digit (Z.shiftr (byte_to_Z b) 4)))
    as [E|_]; [now destruct (hex_digit_high b) |].
  destruct (ascii_dec "=" (HMAC.hex_digit (Z.land (byte_to_Z b) 15)))
    as [E|_]; [now destruct (hex_digit_low b) |].
  reflexivity.
Qed.

End HexFacts.

Section SignatureFacts.

Variable hashlib : string -> option hashlib_attr.

(** The split of [a=b] when [a] holds no ['=']. *)
Lemma split_at_first_equals (cur a b : string) :
  PyStr.contains "=" a = false ->
  PyStr.split_aux "=" 0 cur (a +:+ "=" +:+ b)
  = (cur +:+ a) :: PyStr.split "=" b.
Proof.
  change ("=" +:+ b) with (String "="%char b).
  revert cur. induction a as [|c a IH]; intros cur H.
  - rewrite PyStrFacts.append_nil_l, PyStrFacts.append_nil_r.
    cbn [PyStr.split_aux String.prefix].
    destruct (ascii_dec "=" "=") as [_|N]; [| congruence].
    now destruct b.
  - rewrite HexFacts.contains_eq_cons in H.
    apply orb_false_iff in H as [Hc Ha].
    rewrite PyStrFacts.append_cons. cbn [PyStr.split_aux String.prefix].
    destruct (ascii_dec "=" c); [discriminate |].
    rewrite (IH _ Ha), PyStrFacts.append_assoc. reflexivity.
Qed.

Lemma split_header (a b : string) :
  PyStr.contains "=" a = false ->
  PyStr.split "=" (a +:+ "=" +:+ b) = a :: PyStr.split "=" b.
Proof.
  intros H. unfold PyStr.split at 1.
  now rewrite (split_at_first_equals "" a b H).
Qed.

(** A header without ['='] is refused, whatever the secret and body. *)
Lemma validate_hub_signature_no_equals
    (app_secret : string) (request_payload : bytes) (header : string) :
  PyStr.contains "=" header = false ->
  validate_hub_signature hashlib app_secret request_payload header = Ok false.
Proof.
  intros H. unfold validate_hub_signature.
  now rewrite (PyStrFacts.split_absent _ _ H).
Qed.

(** A header with more than one ['='] is refused. *)
Lemma validate_hub_signature_many_equals
    (app_secret : string) (request_payload : bytes) (a b c : string) :
  PyStr.contains "=" a = false ->
  PyStr.contains "=" b = false ->
  validate_hub_signature hashlib app_secret request_payload
    (a +:+ "=" +:+ b +:+ "=" +:+ c) = Ok false.
Proof.
  intros Ha Hb. unfold validate_hub_signature.
  rewrite (split_header _ _ Ha), (split_header _ _ Hb).
  destruct (PyStr.split "=" c) eqn:E; [| reflexivity].
  now destruct (PyStrFacts.split_aux_not_nil "=" 0 "" c).
Qed.

(** What the verifier does with [method=signature]. *)
Lemma validate_hub_signature_header
    (app_secret : string) (request_payload : bytes) (method sig : string) :
  PyStr.contains "=" method = false ->
  validate_hub_signature hashlib app_secret request_payload
    (method +:+ "=" +:+ sig)
  = match PyStr.split "=" sig with
    | [_] =>
        (let* digest_module := getattr_hashlib hashlib method in
         let* generated_hash :=
           hmac_hexdigest (utf8 app_secret) request_payload digest_module in
         if String.eqb sig generated_hash then Ok true else Ok false)%result
    | _ => Ok false
    end.
Proof.
  intros Hm. unfold validate_hub_signature. rewrite (split_header _ _ Hm).
  destruct (PyStr.split "=" sig) as [|x [|y l]] eqn:E; try reflexivity.
  apply PyStrFacts.split_singleton in E. now subst x.
Qed.

(** With a hash constructor under the name, a signature that differs
    from the digest is refused. *)
Lemma validate_hub_signature_mismatch
    (app_secret : string) (request_payload : bytes) (method sig : string)
    (d : digest_module) :
  PyStr.contains "=" method = false ->
  hashlib method = Some (HashConstructor d) ->
  sig <> HMAC.hexdigest d (utf8 app_secret) request_payload ->
  validate_hub_signature hashlib app_secret request_payload
    (method +:+ "=" +:+ sig) = Ok false.
Proof.
  intros Hm Hh Hne. rewrite (validate_hub_signature_header _ _ _ _ Hm).
  destruct (PyStr.split "=" sig) as [|x [|y l]]; try reflexivity.
  unfold getattr_hashlib. rewrite Hh. cbn.
  apply String.eqb_neq in Hne. now rewrite Hne.
Qed.

Lemma validate_hub_signature_match
    (app_secret : string) (request_payload : bytes) (method : string)
    (d : digest_module) :
  PyStr.contains "=" method = false ->
  hashlib method = Some (HashConstructor d) ->
  validate_hub_signature hashlib app_secret request_payload
    (method +:+ "=" +:+ HMAC.hexdigest d (utf8 app_secret) request_payload)
  = Ok true.
Proof.
  intros Hm Hh. rewrite (validate_hub_signature_header _ _ _ _ Hm).
  unfold HMAC.hexdigest at 1.
  rewrite (PyStrFacts.split_absent _ _ (HexFacts.hex_no_equals _)).
  unfold getattr_hashlib. rewrite Hh. cbn.
  now rewrite String.eqb_refl.
Qed.

(** With an attribute of [hashlib] that is no hash constructor under
    the name, what [hmac] raises reaches the caller. *)
Lemma validate_hub_signature_not_a_hash
    (app_secret : string) (request_payload : bytes) (method sig : string)
    (e : exn) :
  PyStr.contains "=" method = false ->
  PyStr.contains "=" sig = false ->
  hashlib method = Some (NotAHash e) ->
  validate_hub_signature hashlib app_secret request_payload
    (method +:+ "=" +:+ sig) = Raise e.
Proof.
  intros Hm Hs Hh. rewrite (validate_hub_signature_header _ _ _ _ Hm).
  rewrite (PyStrFacts.split_absent _ _ Hs).
  unfold getattr_hashlib. now rewrite Hh.
Qed.

(** C1: the verifier is to return false, and never raise, on a header
    that is malformed, names an unsupported hash algorithm or carries a
    digest that does not match.  It does on a header without ['='], with
    several ['='] or with another digest (the lemmas above), but not on
    an unsupported algorithm: the name is looked up by
    [getattr(hashlib, hash_method)] in the [else] block of the [try],
    which no [except] clause guards, so that for a header
    [method=signature] whose method is no attribute of [hashlib] the
    call raises [AttributeError] to its caller. *)
Theorem validate_hub_signature_unsupported_raises
    (app_secret : string) (request_payload : bytes) (method sig : string) :
  PyStr.contains "=" method = false ->
  PyStr.contains "=" sig = false ->
  hashlib method = None ->
  validate_hub_signature hashlib app_secret request_payload
    (method +:+ "=" +:+ sig) = Raise AttributeError.
Proof.
  intros Hm Hs Hh. rewrite (validate_hub_signature_header _ _ _ _ Hm).
  rewrite (PyStrFacts.split_absent _ _ Hs).
  unfold getattr_hashlib. now rewrite Hh.
Qed.

(** C3: when [hashlib.sha1] is the SHA-1 constructor, the verifier
    accepts the header ["sha1=" + hexdigest] built from the HMAC-SHA1
    of the body under the secret, and refuses every header
    ["sha1=" + sig] whose [sig] differs from that digest. *)
Theorem validate_hub_signature_sha1
    (app_secret : string) (request_payload : bytes) :
  hashlib "sha1" = Some (HashConstructor sha1) ->
  validate_hub_signature hashlib app_secret request_payload
    ("sha1=" +:+ HMAC.hexdigest sha1 (utf8 app_secret) request_payload)
  = Ok true
  /\ forall sig : string,
      sig <> HMAC.hexdigest sha1 (utf8 app_secret) request_payload ->
      validate_hub_signature hashlib app_secret request_payload
        ("sha1=" +:+ sig) = Ok false.
Proof.
  intros Hh. split.
  - exact (validate_hub_signature_match app_secret request_payload "sha1"
             sha1 eq_refl Hh).
  - intros sig Hne.
    exact (validate_hub_signature_mismatch app_secret request_payload "sha1"
             sig sha1 eq_refl Hh Hne).
Qed.

End SignatureFacts.

Lemma validate_hub_signature_unsupported_raises_witness :
  validate_hub_signature hashlib_sha1 "secret" [] "foo=abc"
  = Raise AttributeError.
Proof.
  apply (validate_hub_signature_unsupported_raises hashlib_sha1 "secret" []
           "foo" "abc"); reflexivity.
Defined.

Lemma validate_hub_signature_sha1_witness :
  validate_hub_signature hashlib_sha1 "key"
    (utf8 "The quick brown fox jumps over the lazy dog")
    "sha1=de7c9b85b8b78aa6bc8a7a36f70a90701c9db4d9" = Ok true
  /\ validate_hub_signature hashlib_sha1 "key"
       (utf8 "The quick brown fox jumps over the lazy dog")
       "sha1=de7c9b85b8b78aa6bc8a7a36f70a90701c9db4d8" = Ok false.
Proof.
  destruct (validate_hub_signature_sha1 hashlib_sha1 "key"
              (utf8 "The quick brown fox jumps over the lazy dog") eq_refl)
    as [Hyes Hno].
  split.
  - exact Hyes.
  - apply (Hno "de7c9b85b8b78aa6bc8a7a36f70a90701c9db4d8").
    vm_compute. discriminate.
Defined.

(** ** Runs of the channel *)

Section MonadFacts.

Context {HS : Type}.

Lemma forwards_app (tr1 tr2 : list event) :
  forwards (tr1 ++ tr2) = forwards tr1 ++ forwards tr2.
Proof. unfold forwards. now rewrite flat_map_app. Qed.

Lemma sent_payloads_app (tr1 tr2 : list event) :
  sent_payloads (tr1 ++ tr2) = sent_payloads tr1 ++ sent_payloads tr2.
Proof. unfold sent_payloads. now rewrite flat_map_app. Qed.

(** The run of [_handle_user_message]: the handler is called once; an
    instance of [Exception] it raises is logged and dropped. *)
Lemma _handle_user_message_run
    (self : @Messenger HS) (text sender_id : pyobj) (s : HS) :
  _handle_user_message self text sender_id s
  = let um := user_message self text sender_id in
    match on_new_message self um s with
    | (None, s') =>
        (Ok tt, [Print "Handling User Message: {}" text; OnNewMessage um], s')
    | (Some e, s') =>
        if is_Exception e
        then (Ok tt,
              [Print "Handling User Message: {}" text; OnNewMessage um;
               LogException
                 "Exception when trying to handle webhook for facebook message."
                 e], s')
        else (Raise e,
              [Print "Handling User Message: {}" text; OnNewMessage um], s')
    end.
Proof.
  unfold _handle_user_message, bind, emit, try_except, call_on_new_message,
    user_message.
  cbn.
  destruct (on_new_message self _ s) as [[e|] s']; [| reflexivity].
  now destruct (is_Exception e).
Qed.

(** Whatever the handler does, it is called exactly once and no
    client call nor warning is made. *)
Lemma _handle_user_message_trace
    (self : @Messenger HS) (text sender_id : pyobj) (s : HS) :
  forwards (snd (fst (_handle_user_message self text sender_id s)))
  = [user_message self text sender_id]
  /\ client_calls (snd (fst (_handle_user_message self text sender_id s))) = []
  /\ warnings (snd (fst (_handle_user_message self text sender_id s))) = [].
Proof.
  rewrite _handle_user_message_run. cbn zeta.
  destruct (on_new_message self _ s) as [[e|] s']; [| now cbn].
  now destruct (is_Exception e).
Qed.

Lemma _handle_user_message_returns
    (self : @Messenger HS) (text sender_id : pyobj) (s : HS) :
  raises_only_Exception self ->
  fst (fst (_handle_user_message self text sender_id s)) = Ok tt.
Proof.
  intros Hsafe. rewrite _handle_user_message_run. cbn zeta.
  destruct (on_new_message self _ s) as [[e|] s'] eqn:E; [| reflexivity].
  rewrite (Hsafe (user_message self text sender_id) s e); [reflexivity |].
  now rewrite E.
Qed.

End MonadFacts.

Section MessageFacts.

Context {HS : Type}.
Variable py_str : pyobj -> string.

(** The run of [message] on a user text: the text is replaced by
    ["/long_text"] when it is longer than 512. *)
Lemma message_user_text
    (self : @Messenger HS) (ev c t uid : pyobj) (n : Z) (s : HS) :
  _is_user_message ev = Ok c ->
  Py.truthy c = true ->
  (let* m := Py.getitem ev "message" in Py.getitem m "text")%result = Ok t ->
  Py.len t = Ok n ->
  get_user_id self = Ok uid ->
  message py_str self ev s
  = let r := _handle_user_message self
               (if n >? 512 then PyStr "/long_text" else t) uid s in
    (fst (fst r), Print "Message: {}" ev :: snd (fst r), snd r).
Proof.
  intros Hc Ht Htext Hlen Huid.
  unfold message, message_text, bind, lift, emit, ret.
  rewrite Hc, Ht, Htext.
  destruct (Py.getitem ev "message") as [m|] eqn:Em; [| discriminate].
  cbn in Htext. cbn -[_handle_user_message].
  rewrite Htext. cbn -[_handle_user_message]. rewrite Hlen, Huid.
  destruct (n >? 512); cbn -[_handle_user_message];
    destruct (_handle_user_message self _ uid s) as [[[[]|e] tr] s'];
    cbn; rewrite ?app_nil_r; reflexivity.
Qed.

Lemma message_audio
    (self : @Messenger HS) (ev c1 c2 a0 url uid : pyobj) (s : HS) :
  _is_user_message ev = Ok c1 ->
  Py.truthy c1 = false ->
  _is_audio_message ev = Ok c2 ->
  Py.truthy c2 = true ->
  (let* m := Py.getitem ev "message" in
   let* a := Py.getitem m "attachments" in
   Py.getitem_int a 0)%result = Ok a0 ->
  (let* p := Py.getitem a0 "payload" in Py.getitem p "url")%result = Ok url ->
  get_user_id self = Ok uid ->
  message py_str self ev s
  = let r := _handle_user_message self url uid s in
    (fst (fst r), Print "Message: {}" ev :: snd (fst r), snd r).
Proof.
  intros H1 T1 H2 T2 Ha Hu Huid.
  unfold message, message_text, bind, lift, emit, ret.
  rewrite H1, T1, H2, T2, Ha, Hu, Huid.
  cbn -[_handle_user_message].
  destruct (_handle_user_message self _ uid s) as [[[[]|e] tr] s'];
    reflexivity.
Qed.

Lemma message_location
    (self : @Messenger HS) (ev c1 c2 c3 a0 co lat long uid : pyobj) (s : HS) :
  _is_user_message ev = Ok c1 ->
  Py.truthy c1 = false ->
  _is_audio_message ev = Ok c2 ->
  Py.truthy c2 = false ->
  _is_user_location ev = Ok c3 ->
  Py.truthy c3 = true ->
  (let* m := Py.getitem ev "message" in
   let* a := Py.getitem m "attachments" in
   Py.getitem_int a 0)%result = Ok a0 ->
  (let* p := Py.getitem a0 "payload" in
   Py.getitem p "coordinates")%result = Ok co ->
  Py.getitem co "lat" = Ok lat ->
  Py.getitem co "long" = Ok long ->
  get_user_id self = Ok uid ->
  message py_str self ev s
  = let r := _handle_user_message self
               (PyStr (py_str lat +:+ " " +:+ py_str long)) uid s in
    (fst (fst r), Print "Message: {}" ev :: snd (fst r), snd r).
Proof.
  intros H1 T1 H2 T2 H3 T3 Ha Hco Hlat Hlong Huid.
  unfold message, message_text, bind, lift, emit, ret.
  rewrite H1, T1, H2, T2, H3, T3, Ha, Hco, Hlat, Hlong, Huid.
  cbn -[_handle_user_message].
  destruct (_handle_user_message self _ uid s) as [[[[]|e] tr] s'];
    reflexivity.
Qed.

Lemma message_unhandled
    (self : @Messenger HS) (ev c1 c2 c3 : pyobj) (s : HS) :
  _is_user_message ev = Ok c1 ->
  Py.truthy c1 = false ->
  _is_audio_message ev = Ok c2 ->
  Py.truthy c2 = false ->
  _is_user_location ev = Ok c3 ->
  Py.truthy c3 = false ->
  message py_str self ev s
  = (Ok tt,
     [Print "Message: {}" ev;
      LogWarning
        "Received a message from facebook that we can not handle. Message: {}"
        (Some ev)], s).
Proof.
  intros H1 T1 H2 T2 H3 T3.
  unfold message, message_text, bind, lift, emit, ret.
  now rewrite H1, T1, H2, T2, H3, T3.
Qed.

End MessageFacts.

Lemma index_first {A : Type} (x : A) (l : list A) : Py.index (x :: l) 0 = Ok x.
Proof.
  unfold Py.index. cbn [Z.ltb Z.compare Z.leb andb].
  replace (0 <? Z.of_nat (length (x :: l))) with true; [reflexivity |].
  symmetry. apply Z.ltb_lt. cbn [length]. lia.
Qed.

Section ClassifyFacts.

Variables (d md : dict).
Hypothesis Em : Dict.get "message" d = Some (PyDict md).
Hypothesis Tm : Py.truthy (PyDict md) = true.

Lemma user_message_cases :
  match Dict.get "text" md with
  | Some t => negb (Py.truthy t) || has_len t
  | None => true
  end = true ->
  (exists c t n,
      _is_user_message (PyDict d) = Ok c /\ Py.truthy c = true
      /\ (let* m := Py.getitem (PyDict d) "message" in
          Py.getitem m "text")%result = Ok t
      /\ Py.len t = Ok n)
  \/ (exists c, _is_user_message (PyDict d) = Ok c /\ Py.truthy c = false).
Proof.
  intros H.
  unfold _is_user_message, Py.and_, Py.not_, Py.get, Py.getitem, rbind.
  rewrite Em, Tm.
  destruct (Dict.get "text" md) as [t|] eqn:Et.
  - destruct (Py.truthy t) eqn:Tt.
    + cbn in H. unfold has_len in H.
      destruct (Py.len t) as [n|] eqn:En; [| discriminate].
      destruct (Dict.get "is_echo" md) as [e|];
        [destruct (Py.truthy e) eqn:Te |].
      * right. exists (PyBool false). split; reflexivity.
      * left. exists (PyBool true), t, n. repeat split; assumption.
      * left. exists (PyBool true), t, n. repeat split; assumption.
    + right. exists t. split; [reflexivity | assumption].
  - right. exists PyNone. split; reflexivity.
Qed.

Lemma attachment_cases :
  match Dict.get "attachments" md with
  | Some (PyList (a0 :: _)) => attachment_well_formed a0
  | Some a => negb (Py.truthy a)
  | None => true
  end = true ->
  (exists c2 a0 url,
      _is_audio_message (PyDict d) = Ok c2 /\ Py.truthy c2 = true
      /\ (let* m := Py.getitem (PyDict d) "message" in
          let* a := Py.getitem m "attachments" in
          Py.getitem_int a 0)%result = Ok a0
      /\ (let* p := Py.getitem a0 "payload" in
          Py.getitem p "url")%result = Ok url)
  \/ (exists c2 c3 a0 co lat long,
      _is_audio_message (PyDict d) = Ok c2 /\ Py.truthy c2 = false
      /\ _is_user_location (PyDict d) = Ok c3 /\ Py.truthy c3 = true
      /\ (let* m := Py.getitem (PyDict d) "message" in
          let* a := Py.getitem m "attachments" in
          Py.getitem_int a 0)%result = Ok a0
      /\ (let* p := Py.getitem a0 "payload" in
          Py.getitem p "coordinates")%result = Ok co
      /\ Py.getitem co "lat" = Ok lat
      /\ Py.getitem co "long" = Ok long)
  \/ (exists c2 c3,
      _is_audio_message (PyDict d) = Ok c2 /\ Py.truthy c2 = false
      /\ _is_user_location (PyDict d) = Ok c3 /\ Py.truthy c3 = false).
Proof.
  intros H.
  unfold _is_audio_message, _is_user_location, Py.and_, Py.get, Py.getitem,
    Py.getitem_int, rbind.
  rewrite Em, Tm.
  destruct (Dict.get "attachments" md) as [a|] eqn:Ea.
  2: { right; right. exists PyNone, PyNone. repeat split; reflexivity. }
  destruct (Py.truthy a) eqn:Ta.
  2: { right; right. exists a, a. repeat split; assumption. }
  destruct a as [| | | | |[|a0 rest]|]; cbn in H, Ta; try congruence.
  destruct a0 as [| | | | | |d0]; try discriminate. cbn in H.
  destruct (Dict.get "type" d0) as [t0|] eqn:Et0; [| discriminate].
  apply andb_true_iff in H as [Haudio Hloc].
  rewrite index_first, Et0.
  destruct (Py.eq_str t0 "audio") eqn:Eaudio.
  - left. cbn in Haudio. unfold has_url in Haudio.
    destruct (Dict.get "payload" d0) as [[| | | | | |p]|] eqn:Ep;
      try discriminate.
    unfold Dict.has in Haudio.
    destruct (Dict.get "url" p) as [url|] eqn:Eu; [| discriminate].
    exists (PyBool true), (PyDict d0), url.
    rewrite Ep, Eu. repeat split; reflexivity.
  - destruct (Py.eq_str t0 "location") eqn:Eloc.
    + right; left. cbn in Hloc. unfold has_coordinates in Hloc.
      destruct (Dict.get "payload" d0) as [[| | | | | |p]|] eqn:Ep;
        try discriminate.
      destruct (Dict.get "coordinates" p) as [[| | | | | |co]|] eqn:Eco;
        try discriminate.
      unfold Dict.has in Hloc. apply andb_true_iff in Hloc as [Hlat Hlong].
      destruct (Dict.get "lat" co) as [lat|] eqn:Elat; [| discriminate].
      destruct (Dict.get "long" co) as [long|] eqn:Elong; [| discriminate].
      exists (PyBool false), (PyBool true), (PyDict d0), (PyDict co), lat, long.
      rewrite Ep, Eco, Elat, Elong. repeat split; reflexivity.
    + right; right. exists (PyBool false), (PyBool false).
      repeat split; reflexivity.
Qed.

End ClassifyFacts.

Lemma classify_well_formed (ev : pyobj) :
  event_well_formed ev = true -> classified ev.
Proof.
  assert (U : forall d c,
             Dict.get "message" d = Some c \/ (Dict.get "message" d = None /\ c = PyNone) ->
             Py.truthy c = false ->
             classified (PyDict d)).
  { intros d c Hd Tc. apply (Unhandled _ c c c); try assumption;
      unfold _is_user_message, _is_audio_message, _is_user_location, Py.and_,
        Py.get, rbind;
      destruct Hd as [-> | [-> ->]]; now rewrite ?Tc. }
  intros H. destruct ev as [| | | | |?|d]; try discriminate. cbn in H.
  destruct (Dict.get "message" d) as [m|] eqn:Em.
  2: { apply (U d PyNone); [right; split; [assumption | reflexivity] | reflexivity]. }
  destruct (Py.truthy m) eqn:Tm.
  2: { apply (U d m); [left |]; assumption. }
  destruct m as [| | | | | |md];
    try (unfold message_well_formed in H; rewrite Tm in H; discriminate).
  cbn in H. apply andb_true_iff in H as [Htext Hatt].
  destruct (user_message_cases d md Em Tm Htext)
    as [(c & t & n & H1 & T1 & Ht & Hn) | (c1 & H1 & T1)].
  - exact (UserText _ c t n H1 T1 Ht Hn).
  - destruct (attachment_cases d md Em Tm Hatt)
      as [(c2 & a0 & url & H2 & T2 & Ha & Hu)
         | [(c2 & c3 & a0 & co & lat & long & H2 & T2 & H3 & T3 & Ha & Hco
             & Hlat & Hlong)
           | (c2 & c3 & H2 & T2 & H3 & T3)]].
    + exact (Audio _ c1 c2 a0 url H1 T1 H2 T2 Ha Hu).
    + exact (Location _ c1 c2 c3 a0 co lat long H1 T1 H2 T2 H3 T3 Ha Hco
               Hlat Hlong).
    + exact (Unhandled _ c1 c2 c3 H1 T1 H2 T2 H3 T3).
Qed.

Section ClassificationClaims.

Context {HS : Type}.
Variable py_str : pyobj -> string.

(** The run of [message] on an event it classifies: it returns, and
    either one message went to the handler and no warning was logged,
    or nothing went to the handler and the event was logged as
    unhandled. *)
Lemma message_classified
    (self : @Messenger HS) (ev uid : pyobj) (s : HS) :
  classified ev ->
  get_user_id self = Ok uid ->
  raises_only_Exception self ->
  exists (tr : list event) (s' : HS),
    message py_str self ev s = (Ok tt, tr, s')
    /\ ((exists text : pyobj,
            forwards tr = [user_message self text uid] /\ warnings tr = [])
        \/ (forwards tr = []
            /\ warnings tr
               = [LogWarning
                    "Received a message from facebook that we can not handle. Message: {}"
                    (Some ev)])).
Proof.
  intros C Huid Hsafe.
  assert (R : forall text,
             exists tr s',
               (let r := _handle_user_message self text uid s in
                (fst (fst r), Print "Message: {}" ev :: snd (fst r), snd r))
               = (Ok tt, tr, s')
               /\ ((exists text : pyobj,
                       forwards tr = [user_message self text uid]
                       /\ warnings tr = [])
                   \/ (forwards tr = []
                       /\ warnings tr
                          = [LogWarning
                               "Received a message from facebook that we can not handle. Message: {}"
                               (Some ev)]))).
  { intros text. cbn zeta.
    eexists _, _. split.
    - rewrite (_handle_user_message_returns self text uid s Hsafe).
      reflexivity.
    - left. exists text.
      destruct (_handle_user_message_trace self text uid s) as (F & _ & W).
      split; [exact F | exact W]. }
  destruct C.
  - rewrite (message_user_text py_str self ev c t uid n s H1 T1 Ht Hn Huid).
    apply R.
  - rewrite (message_audio py_str self ev c1 c2 a0 url uid s
               H1 T1 H2 T2 Ha Hu Huid).
    apply R.
  - rewrite (message_location py_str self ev c1 c2 c3 a0 co lat long uid s
               H1 T1 H2 T2 H3 T3 Ha Hco Hlat Hlong Huid).
    apply R.
  - rewrite (message_unhandled py_str self ev c1 c2 c3 s H1 T1 H2 T2 H3 T3).
    eexists _, _. split; [reflexivity |]. right. split; reflexivity.
Qed.

(** C2, amended: [Messenger.message] returns without raising, with
    exactly one outcome (one message forwarded to the handler, or the
    event logged as unhandled and nothing forwarded) for every event
    that is an object whose [message] entry is absent, false, or an
    object in which [text] is absent, false or sized, and
    [attachments] is absent, false or a list whose first element is an
    object with a [type], with [payload.url] when the type is audio and
    [payload.coordinates.lat/long] when it is location; provided
    [get_user_id] answers and the handler raises nothing outside
    [Exception]. *)
Theorem message_total_on_well_formed
    (self : @Messenger HS) (ev uid : pyobj) (s : HS) :
  event_well_formed ev = true ->
  get_user_id self = Ok uid ->
  raises_only_Exception self ->
  exists (tr : list event) (s' : HS),
    message py_str self ev s = (Ok tt, tr, s')
    /\ ((exists text : pyobj,
            forwards tr = [user_message self text uid] /\ warnings tr = [])
        \/ (forwards tr = []
            /\ warnings tr
               = [LogWarning
                    "Received a message from facebook that we can not handle. Message: {}"
                    (Some ev)])).
Proof.
  intros Hwf. apply message_classified. now apply classify_well_formed.
Qed.

(** C7: for a user text message, a text longer than 512 characters is
    replaced by ["/long_text"] in the message forwarded to the handler;
    a text of at most 512 characters, and so one of exactly 512, is
    forwarded as it is. *)
Theorem message_long_text
    (self : @Messenger HS) (ev c uid : pyobj) (t : string) (s : HS) :
  _is_user_message ev = Ok c ->
  Py.truthy c = true ->
  (let* m := Py.getitem ev "message" in Py.getitem m "text")%result
  = Ok (PyStr t) ->
  get_user_id self = Ok uid ->
  ((512 < String.length t)%nat ->
   forwards (snd (fst (message py_str self ev s)))
   = [user_message self (PyStr "/long_text") uid])
  /\ ((String.length t <= 512)%nat ->
      forwards (snd (fst (message py_str self ev s)))
      = [user_message self (PyStr t) uid]).
Proof.
  intros Hc Tc Ht Huid.
  rewrite (message_user_text py_str self ev c (PyStr t) uid
             (Z.of_nat (String.length t)) s Hc Tc Ht eq_refl Huid).
  cbn zeta. cbn [fst snd].
  change (forwards (Print "Message: {}" ev :: ?tr)) with (forwards tr).
  split; intros Hlen.
  - replace (Z.of_nat (String.length t) >? 512) with true
      by (symmetry; apply Z.gtb_lt; lia).
    apply _handle_user_message_trace.
  - replace (Z.of_nat (String.length t) >? 512) with false.
    + apply _handle_user_message_trace.
    + symmetry. rewrite Z.gtb_ltb. apply Z.ltb_ge. lia.
Qed.

End ClassificationClaims.

Lemma raises_only_Exception_accepting :
  raises_only_Exception (example_messenger accepting_handler).
Proof. intros um s e H. discriminate H. Qed.

Lemma raises_only_Exception_failing :
  raises_only_Exception (example_messenger failing_handler).
Proof. intros um s e H. cbn in H. now inversion H. Qed.

(** C2, counterexample: on an event whose first attachment has no
    [type], [message] raises [KeyError]. *)
Lemma message_raises_without_attachment_type :
  message str_of_text (example_messenger accepting_handler)
    (PyDict [("message", PyDict [("attachments", PyList [PyDict []])])]) 0%nat
  = (Raise KeyError,
     [Print "Message: {}"
        (PyDict [("message", PyDict [("attachments", PyList [PyDict []])])])],
     0%nat).
Proof. reflexivity. Qed.

Lemma message_total_on_well_formed_witness :
  exists (tr : list event) (s' : nat),
    message str_of_text (example_messenger failing_handler)
      (PyDict
         [("message",
           PyDict
             [("attachments",
               PyList
                 [PyDict
                    [("type", PyStr "audio");
                     ("payload", PyDict [("url", PyStr "https://cdn/a.mp4")])]])])])
      0%nat
    = (Ok tt, tr, s')
    /\ ((exists text : pyobj,
            forwards tr
            = [user_message (example_messenger failing_handler) text
                 (PyStr "1254459154682919")]
            /\ warnings tr = [])
        \/ (forwards tr = []
            /\ warnings tr
               = [LogWarning
                    "Received a message from facebook that we can not handle. Message: {}"
                    (Some
                       (PyDict
                          [("message",
                            PyDict
                              [("attachments",
                                PyList
                                  [PyDict
                                     [("type", PyStr "audio");
                                      ("payload",
                                       PyDict [("url", PyStr "https://cdn/a.mp4")])]])])]))])).
Proof.
  apply (message_total_on_well_formed str_of_text
           (example_messenger failing_handler)).
  - reflexivity.
  - reflexivity.
  - exact raises_only_Exception_failing.
Defined.

Lemma message_long_text_witness :
  forwards
    (snd (fst (message str_of_text (example_messenger accepting_handler)
                 (PyDict [("message", PyDict [("text", PyStr (text_of_length 513))])])
                 0%nat)))
  = [user_message (example_messenger accepting_handler) (PyStr "/long_text")
       (PyStr "1254459154682919")]
  /\ forwards
       (snd (fst (message str_of_text (example_messenger accepting_handler)
                    (PyDict [("message", PyDict [("text", PyStr (text_of_length 512))])])
                    0%nat)))
     = [user_message (example_messenger accepting_handler)
          (PyStr (text_of_length 512)) (PyStr "1254459154682919")].
Proof.
  split.
  - apply (message_long_text str_of_text (example_messenger accepting_handler)
             (PyDict [("message", PyDict [("text", PyStr (text_of_length 513))])])
             (PyBool true) (PyStr "1254459154682919") (text_of_length 513) 0%nat);
      try reflexivity.
    vm_compute. lia.
  - apply (message_long_text str_of_text (example_messenger accepting_handler)
             (PyDict [("message", PyDict [("text", PyStr (text_of_length 512))])])
             (PyBool true) (PyStr "1254459154682919") (text_of_length 512) 0%nat);
      reflexivity.
Defined.

(** ** Handover *)

Section HandoverClaims.

Context {HS : Type}.

Lemma client_calls_app (tr1 tr2 : list event) :
  client_calls (tr1 ++ tr2) = client_calls tr1 ++ client_calls tr2.
Proof. unfold client_calls. apply List.filter_app. Qed.

(** The run of [handover] on a request from an authorized app. *)
Lemma handover_authorized
    (self : @Messenger HS) (ev c app_id metadata uid : pyobj) (s : HS) :
  _is_request_thread_control ev = Ok c ->
  Py.truthy c = true ->
  (let* r := Py.getitem ev "request_thread_control" in
   Py.getitem r "requested_owner_app_id")%result = Ok app_id ->
  Py.in_ints app_id (thread_control_authorized self) = true ->
  (let* r := Py.getitem ev "request_thread_control" in
   Py.getitem r "metadata")%result = Ok metadata ->
  get_user_id self = Ok uid ->
  handover self ev s
  = let r := _handle_user_message self (PyStr "/passed_thread_control") uid s in
    (fst (fst r),
     Print "Handover: {}" ev
     :: Print "Recipient ID: {}" uid
     :: ClientPassThreadControl app_id metadata
          (PyDict [("recipient", PyDict [("id", uid)])])
     :: snd (fst r),
     snd r).
Proof.
  intros Hc Tc Happ Hin Hmeta Huid.
  unfold handover, send_pass_thread_control, bind, lift, emit, ret.
  rewrite Hc, Tc, Happ, Hin, Huid, Hmeta.
  cbn -[_handle_user_message].
  destruct (_handle_user_message self _ uid s) as [[[[]|e] tr] s'];
    reflexivity.
Qed.

Lemma handover_unauthorized
    (self : @Messenger HS) (ev c app_id : pyobj) (s : HS) :
  _is_request_thread_control ev = Ok c ->
  Py.truthy c = true ->
  (let* r := Py.getitem ev "request_thread_control" in
   Py.getitem r "requested_owner_app_id")%result = Ok app_id ->
  Py.in_ints app_id (thread_control_authorized self) = false ->
  handover self ev s
  = (Ok tt,
     [Print "Handover: {}" ev;
      LogWarning
        "Received a request thread control from facebookfrom an app that is not authorized: {}"
        (Some ev)],
     s).
Proof.
  intros Hc Tc Happ Hin.
  unfold handover, bind, lift, emit, ret.
  now rewrite Hc, Tc, Happ, Hin.
Qed.

Lemma handover_pass
    (self : @Messenger HS) (ev c1 c2 uid : pyobj) (s : HS) :
  _is_request_thread_control ev = Ok c1 ->
  Py.truthy c1 = false ->
  _is_pass_thread_control ev = Ok c2 ->
  Py.truthy c2 = true ->
  get_user_id self = Ok uid ->
  handover self ev s
  = let r := _handle_user_message self (PyStr "/reconnect_user") uid s in
    (fst (fst r), Print "Handover: {}" ev :: snd (fst r), snd r).
Proof.
  intros H1 T1 H2 T2 Huid.
  unfold handover, bind, lift, emit, ret.
  rewrite H1, T1, H2, T2, Huid.
  cbn -[_handle_user_message].
  destruct (_handle_user_message self _ uid s) as [[[[]|e] tr] s'];
    reflexivity.
Qed.

(** C5: on a request-thread-control event naming [app_id], when
    [app_id] is in the authorized list and the event carries
    [metadata], [handover] makes exactly one client call, the
    pass-thread-control command for [app_id] and [metadata], and hands
    exactly one message, ["/passed_thread_control"], to the handler;
    when [app_id] is not in the list it makes no client call, hands
    nothing to the handler and only prints the event and logs a
    warning. *)
Theorem handover_request_thread_control
    (self : @Messenger HS) (ev c app_id : pyobj) (s : HS) :
  _is_request_thread_control ev = Ok c ->
  Py.truthy c = true ->
  (let* r := Py.getitem ev "request_thread_control" in
   Py.getitem r "requested_owner_app_id")%result = Ok app_id ->
  (forall metadata uid : pyobj,
      Py.in_ints app_id (thread_control_authorized self) = true ->
      (let* r := Py.getitem ev "request_thread_control" in
       Py.getitem r "metadata")%result = Ok metadata ->
      get_user_id self = Ok uid ->
      client_calls (snd (fst (handover self ev s)))
      = [ClientPassThreadControl app_id metadata
           (PyDict [("recipient", PyDict [("id", uid)])])]
      /\ forwards (snd (fst (handover self ev s)))
         = [user_message self (PyStr "/passed_thread_control") uid])
  /\ (Py.in_ints app_id (thread_control_authorized self) = false ->
      handover self ev s
      = (Ok tt,
         [Print "Handover: {}" ev;
          LogWarning
            "Received a request thread control from facebookfrom an app that is not authorized: {}"
            (Some ev)],
         s)
      /\ client_calls (snd (fst (handover self ev s))) = []
      /\ forwards (snd (fst (handover self ev s))) = []).
Proof.
  intros Hc Tc Happ. split.
  - intros metadata uid Hin Hmeta Huid.
    rewrite (handover_authorized self ev c app_id metadata uid s
               Hc Tc Happ Hin Hmeta Huid).
    cbn zeta. cbn [fst snd].
    destruct (_handle_user_message_trace self (PyStr "/passed_thread_control")
                uid s) as (F & C & _).
    split.
    + change (client_calls (?a :: ?b :: ?c :: ?tr))
        with (c :: client_calls tr).
      now rewrite C.
    + exact F.
  - intros Hin.
    rewrite (handover_unauthorized self ev c app_id s Hc Tc Happ Hin).
    repeat split; reflexivity.
Qed.

(** C8: on a pass-thread-control event, one that
    [_is_pass_thread_control] recognises and that is no thread-control
    request, [handover] hands exactly one message, ["/reconnect_user"],
    to the handler and makes no client call, whatever the messenger,
    the state of the handler and the owner named. *)
Theorem handover_pass_thread_control
    (self : @Messenger HS) (ev c1 c2 uid : pyobj) (s : HS) :
  _is_request_thread_control ev = Ok c1 ->
  Py.truthy c1 = false ->
  _is_pass_thread_control ev = Ok c2 ->
  Py.truthy c2 = true ->
  get_user_id self = Ok uid ->
  forwards (snd (fst (handover self ev s)))
  = [user_message self (PyStr "/reconnect_user") uid]
  /\ client_calls (snd (fst (handover self ev s))) = [].
Proof.
  intros H1 T1 H2 T2 Huid.
  rewrite (handover_pass self ev c1 c2 uid s H1 T1 H2 T2 Huid).
  cbn zeta. cbn [fst snd].
  destruct (_handle_user_message_trace self (PyStr "/reconnect_user") uid s)
    as (F & C & _).
  split; [exact F | exact C].
Qed.

End HandoverClaims.

Lemma handover_request_thread_control_witness :
  (client_calls
     (snd (fst (handover (example_messenger accepting_handler)
                  (PyDict
                     [("request_thread_control",
                       PyDict
                         [("requested_owner_app_id", PyInt 263902037430900);
                          ("metadata", PyStr "additional content")])])
                  0%nat)))
   = [ClientPassThreadControl (PyInt 263902037430900)
        (PyStr "additional content")
        (PyDict [("recipient", PyDict [("id", PyStr "1254459154682919")])])]
   /\ forwards
        (snd (fst (handover (example_messenger accepting_handler)
                     (PyDict
                        [("request_thread_control",
                          PyDict
                            [("requested_owner_app_id", PyInt 263902037430900);
                             ("metadata", PyStr "additional content")])])
                     0%nat)))
      = [user_message (example_messenger accepting_handler)
           (PyStr "/passed_thread_control") (PyStr "1254459154682919")])
  /\ forwards
       (snd (fst (handover (example_messenger accepting_handler)
                    (PyDict
                       [("request_thread_control",
                         PyDict
                           [("requested_owner_app_id", PyInt 42);
                            ("metadata", PyStr "additional content")])])
                    0%nat)))
     = [].
Proof.
  split.
  - apply (handover_request_thread_control
             (example_messenger accepting_handler)
             (PyDict
                [("request_thread_control",
                  PyDict
                    [("requested_owner_app_id", PyInt 263902037430900);
                     ("metadata", PyStr "additional content")])])
             (PyInt 263902037430900) (PyInt 263902037430900) 0%nat);
      reflexivity.
  - apply (handover_request_thread_control
             (example_messenger accepting_handler)
             (PyDict
                [("request_thread_control",
                  PyDict
                    [("requested_owner_app_id", PyInt 42);
                     ("metadata", PyStr "additional content")])])
             (PyInt 42) (PyInt 42) 0%nat);
      reflexivity.
Defined.

Lemma handover_pass_thread_control_witness :
  forwards
    (snd (fst (handover (example_messenger accepting_handler)
                 (PyDict
                    [("pass_thread_control",
                      PyDict
                        [("new_owner_app_id", PyInt 263902037430900);
                         ("metadata", PyStr "additional content")])])
                 0%nat)))
  = [user_message (example_messenger accepting_handler)
       (PyStr "/reconnect_user") (PyStr "1254459154682919")]
  /\ client_calls
       (snd (fst (handover (example_messenger accepting_handler)
                    (PyDict
                       [("pass_thread_control",
                         PyDict
                           [("new_owner_app_id", PyInt 263902037430900);
                            ("metadata", PyStr "additional content")])])
                    0%nat)))
     = [].
Proof.
  apply (handover_pass_thread_control (example_messenger accepting_handler)
           (PyDict
              [("pass_thread_control",
                PyDict
                  [("new_owner_app_id", PyInt 263902037430900);
                   ("metadata", PyStr "additional content")])])
           PyNone (PyInt 263902037430900) (PyStr "1254459154682919") 0%nat);
    reflexivity.
Defined.

(** ** Outbound messages *)

Module DictFacts.

Lemma get_set_same (k : string) (v : pyobj) (d : dict) :
  Dict.get k (Dict.set k v d) = Some v.
Proof.
  induction d as [|[k' v'] d IH]; cbn.
  - now rewrite String.eqb_refl.
  - destruct (String.eqb k' k) eqn:E; cbn; now rewrite E.
Qed.

Lemma get_set_other (k k' : string) (v : pyobj) (d : dict) :
  k <> k' -> Dict.get k' (Dict.set k v d) = Dict.get k' d.
Proof.
  intros Hne. induction d as [|[k0 v0] d IH]; cbn.
  - apply String.eqb_neq in Hne. now rewrite Hne.
  - destruct (String.eqb k0 k) eqn:E; cbn.
    + apply String.eqb_eq in E. subst k0.
      apply String.eqb_neq in Hne. now rewrite Hne.
    + now rewrite IH.
Qed.

Lemma has_set (k : string) (v : pyobj) (d : dict) :
  Dict.has k (Dict.set k v d) = true.
Proof. unfold Dict.has. now rewrite get_set_same. Qed.

Lemma length_set_present (k : string) (v : pyobj) (d : dict) :
  Dict.has k d = true -> map fst (Dict.set k v d) = map fst d.
Proof.
  unfold Dict.has. induction d as [|[k' v'] d IH]; cbn; [discriminate |].
  destruct (String.eqb k' k) eqn:E; cbn; intros H; [reflexivity |].
  now rewrite IH.
Qed.

Lemma with_default_idempotent (k : string) (v : pyobj) (d : dict) :
  with_default k v (with_default k v d) = with_default k v d.
Proof.
  unfold with_default. destruct (Dict.has k d) eqn:E.
  - now rewrite E.
  - now rewrite has_set.
Qed.

Lemma map_with_default_idempotent (k : string) (v : pyobj) (l : list dict) :
  map (with_default k v) (map (with_default k v) l) = map (with_default k v) l.
Proof.
  induction l as [|d l IH]; [reflexivity |].
  cbn [map]. now rewrite with_default_idempotent, IH.
Qed.

Lemma with_default_keeps_items (k : string) (v : pyobj) (d : dict) :
  keeps_items d (with_default k v d).
Proof.
  unfold with_default, keeps_items, Dict.has. intros k' v' H.
  destruct (Dict.get k d) eqn:E; [exact H |].
  rewrite get_set_other; [exact H |].
  intros ->. congruence.
Qed.

Lemma with_default_type (d : dict) :
  type_defaulted d (with_default "type" (PyStr "postback") d).
Proof.
  unfold type_defaulted, with_default, Dict.has.
  destruct (Dict.get "type" d) eqn:E; [exact E |].
  apply get_set_same.
Qed.

End DictFacts.

Section DefaultingFacts.

Variables (key value : string).

(** One pass of a defaulting loop over a list of dicts. *)
Lemma mapM_default (bs : list dict) :
  Py.mapM
    (fun entry =>
       let* c := Py.contains key entry in
       if negb c then Py.setitem entry key (PyStr value) else Ok entry)%result
    (map PyDict bs)
  = Ok (map PyDict (map (with_default key (PyStr value)) bs)).
Proof.
  induction bs as [|b bs IH]; [reflexivity |].
  cbn [map Py.mapM]. rewrite IH. cbn. unfold with_default.
  now destruct (Dict.has key b).
Qed.

End DefaultingFacts.

Lemma _add_postback_info_dicts (bs : list dict) :
  _add_postback_info (PyList (map PyDict bs))
  = Ok (PyList (map PyDict (map (with_default "type" (PyStr "postback")) bs))).
Proof.
  unfold _add_postback_info, Py.for_in_place.
  now rewrite (mapM_default "type" "postback" bs).
Qed.

Lemma _add_text_info_dicts (qs : list dict) :
  _add_text_info (PyList (map PyDict qs))
  = Ok (PyList (map PyDict (map (with_default "content_type" (PyStr "text")) qs))).
Proof.
  unfold _add_text_info, Py.for_in_place.
  now rewrite (mapM_default "content_type" "text" qs).
Qed.

Lemma Forall2_map_self {A : Type} (R : A -> A -> Prop) (f : A -> A) (l : list A) :
  (forall x, R x (f x)) -> Forall2 R l (map f l).
Proof. intros H. induction l; constructor; auto. Qed.

Section BotClaims.

Context {HS : Type}.

Lemma for_each_emit {A : Type} (f : A -> event) (l : list A) (s : HS) :
  for_each l (fun x => emit (f x)) s = (Ok tt, map f l, s).
Proof.
  induction l as [|x l IH]; [reflexivity |].
  cbn [for_each map]. unfold bind, emit at 1. now rewrite IH.
Qed.

(** The run of [send_text_message]: one text element per paragraph. *)
Lemma send_text_message_run (recipient_id : pyobj) (message : string) (s : HS) :
  send_text_message recipient_id message s
  = (Ok tt,
     LogInfo ("Sending message: " +:+ message)
     :: map (fun part =>
               ClientSend (ToDict (FBText part))
                 (PyDict [("sender", PyDict [("id", recipient_id)])])
                 "RESPONSE")
          (PyStr.split double_newline message),
     s).
Proof.
  unfold send_text_message, send, bind, emit at 1.
  now rewrite for_each_emit.
Qed.

Lemma sent_payloads_text (recipient : pyobj) (parts : list string) :
  sent_payloads
    (map (fun part => ClientSend (ToDict (FBText part)) recipient "RESPONSE")
       parts)
  = map (fun part => ToDict (FBText part)) parts.
Proof.
  induction parts as [|p parts IH]; [reflexivity |].
  cbn [map]. change (sent_payloads (ClientSend ?p ?r ?t :: ?tr))
    with (p :: sent_payloads tr).
  now rewrite IH.
Qed.

(** C6: with more than three buttons, [send_text_with_buttons] logs
    the capability warning and then does what [send_text_message] does
    with the text: the payloads handed to the client are the text
    elements of the paragraphs of the text, which joined give the text
    back, and none of them is a button template. *)
Theorem send_text_with_buttons_over_limit
    (recipient_id : pyobj) (text : string) (buttons : pyobj) (n : Z) (s : HS) :
  Py.len buttons = Ok n ->
  3 < n ->
  send_text_with_buttons recipient_id text buttons s
  = (Ok tt,
     LogWarning
       "Facebook API currently allows only up to 3 buttons. If you add more, all will be ignored."
       None
     :: snd (fst (send_text_message recipient_id text s)),
     s)
  /\ sent_payloads (snd (fst (send_text_with_buttons recipient_id text buttons s)))
     = map (fun part => ToDict (FBText part)) (PyStr.split double_newline text)
  /\ PyStr.join double_newline (PyStr.split double_newline text) = text
  /\ Forall (fun p => is_button_template p = false)
       (sent_payloads
          (snd (fst (send_text_with_buttons recipient_id text buttons s)))).
Proof.
  intros Hlen Hn.
  assert (R : send_text_with_buttons recipient_id text buttons s
              = (Ok tt,
                 LogWarning
                   "Facebook API currently allows only up to 3 buttons. If you add more, all will be ignored."
                   None
                 :: snd (fst (send_text_message recipient_id text s)),
                 s)).
  { unfold send_text_with_buttons, bind, lift, emit.
    rewrite Hlen.
    replace (n >? 3) with true by (symmetry; apply Z.gtb_lt; lia).
    now rewrite send_text_message_run. }
  assert (P : sent_payloads
                (snd (fst (send_text_with_buttons recipient_id text buttons s)))
              = map (fun part => ToDict (FBText part))
                  (PyStr.split double_newline text)).
  { rewrite R, send_text_message_run. cbn [fst snd].
    change (sent_payloads (LogWarning ?f ?a :: LogInfo ?m :: ?tr))
      with (sent_payloads tr).
    apply sent_payloads_text. }
  split; [exact R |]. split; [exact P |]. split.
  - apply PyStrFacts.join_split.
  - rewrite P. apply List.Forall_forall. intros p Hp.
    apply List.in_map_iff in Hp as (part & <- & _). reflexivity.
Qed.

(** The loop of [send_custom_message] over elements whose buttons are
    lists of dicts. *)
Lemma add_postback_info_elements_dicts (es : list dict) (bss : list (list dict)) :
  Forall2 (fun e bs => Dict.get "buttons" e = Some (PyList (map PyDict bs)))
    es bss ->
  exists es' : list dict,
    add_postback_info_elements (PyList (map PyDict es))
    = Ok (PyList (map PyDict es'))
    /\ Forall2
         (fun e' bs =>
            exists bs' : list dict,
              Dict.get "buttons" e' = Some (PyList (map PyDict bs'))
              /\ Forall2 type_defaulted bs bs')
         es' bss
    /\ Forall2
         (fun e e' =>
            forall k : string, k <> "buttons" -> Dict.get k e' = Dict.get k e)
         es es'.
Proof.
  unfold add_postback_info_elements, Py.for_in_place.
  induction 1 as [|e bs es bss He _ IH].
  - exists []. repeat split; constructor.
  - destruct IH as (es' & Hrun & Hbs & Hother).
    destruct (Py.mapM _ (map PyDict es)) as [l|] eqn:El; [| discriminate].
    cbn in Hrun. injection Hrun as ->.
    exists (Dict.set "buttons"
              (PyList (map PyDict (map (with_default "type" (PyStr "postback")) bs)))
              e :: es').
    split; [| split].
    + cbn [map Py.mapM]. cbn [Py.getitem rbind]. rewrite He. cbn [rbind].
      rewrite _add_postback_info_dicts. cbn [rbind Py.setitem].
      rewrite El. reflexivity.
    + constructor; [| exact Hbs].
      exists (map (with_default "type" (PyStr "postback")) bs). split.
      * apply DictFacts.get_set_same.
      * apply Forall2_map_self. intros b. apply DictFacts.with_default_type.
    + constructor; [| exact Hother].
      intros k Hk. apply DictFacts.get_set_other. congruence.
Qed.

(** The loop of [send_custom_message] on any elements: when it ends
    without raising, each element holds its buttons completed. *)
Lemma add_postback_info_elements_any (es : list dict) (v : pyobj) :
  add_postback_info_elements (PyList (map PyDict es)) = Ok v ->
  exists es' : list dict,
    v = PyList (map PyDict es') /\ Forall2 buttons_completed es es'.
Proof.
  unfold add_postback_info_elements, Py.for_in_place.
  revert v. induction es as [|e es IH]; intros v H.
  - cbn in H. injection H as <-. exists []. split; [reflexivity | constructor].
  - cbn [map Py.mapM] in H. cbn [Py.getitem rbind] in H.
    destruct (Dict.get "buttons" e) as [b|] eqn:Eb; [| discriminate].
    cbn [rbind] in H.
    destruct (_add_postback_info b) as [b'|] eqn:Eb'; [| discriminate].
    cbn [rbind Py.setitem] in H.
    destruct (Py.mapM _ (map PyDict es)) as [l|] eqn:El; [| discriminate].
    cbn [rbind] in H. injection H as <-.
    destruct (IH (PyList l) eq_refl) as (es' & Hl & Hes').
    injection Hl as ->.
    exists (Dict.set "buttons" b' e :: es'). split; [reflexivity |].
    constructor; [| exact Hes'].
    now exists b, b'.
Qed.

Lemma send_custom_message_run (recipient_id elements : pyobj) (s : HS) :
  send_custom_message recipient_id elements s
  = match add_postback_info_elements elements with
    | Ok elements' =>
        (Ok tt,
         [ClientSend (Payload (generic_template elements'))
            (_recipient_json recipient_id) "RESPONSE"],
         s)
    | Raise e => (Raise e, [], s)
    end.
Proof.
  unfold send_custom_message, bind, lift, emit.
  now destruct (add_postback_info_elements elements).
Qed.

(** C9: for at most three buttons, [send_text_with_buttons] hands the
    client one button template whose buttons are, position by
    position, the given ones with ["postback"] as type where none was
    given and the given type otherwise.  [send_custom_message] either
    raises and hands the client nothing, or hands it one generic
    template in which each element holds its buttons after
    [_add_postback_info]; on elements that each hold a list of buttons
    it does not raise, and each list sent is the given one completed in
    the same way. *)
Theorem buttons_sent_with_type
    (recipient_id : pyobj) (text : string) (buttons : list dict)
    (elements : list dict) (element_buttons : list (list dict)) (s : HS) :
  (length buttons <= 3)%nat ->
  (exists buttons' : list dict,
      send_text_with_buttons recipient_id text (PyList (map PyDict buttons)) s
      = (Ok tt,
         [ClientSend
            (Payload (button_template text (PyList (map PyDict buttons'))))
            (PyDict [("sender", PyDict [("id", recipient_id)])]) "RESPONSE"],
         s)
      /\ Forall2 type_defaulted buttons buttons')
  /\ ((exists e : exn,
          send_custom_message recipient_id (PyList (map PyDict elements)) s
          = (Raise e, [], s))
      \/ (exists elements' : list dict,
             send_custom_message recipient_id (PyList (map PyDict elements)) s
             = (Ok tt,
                [ClientSend
                   (Payload (generic_template (PyList (map PyDict elements'))))
                   (_recipient_json recipient_id) "RESPONSE"],
                s)
             /\ Forall2 buttons_completed elements elements'))
  /\ (Forall2 (fun e bs => Dict.get "buttons" e = Some (PyList (map PyDict bs)))
        elements element_buttons ->
      exists elements' : list dict,
        send_custom_message recipient_id (PyList (map PyDict elements)) s
        = (Ok tt,
           [ClientSend
              (Payload (generic_template (PyList (map PyDict elements'))))
              (_recipient_json recipient_id) "RESPONSE"],
           s)
        /\ Forall2
             (fun e' bs =>
                exists bs' : list dict,
                  Dict.get "buttons" e' = Some (PyList (map PyDict bs'))
                  /\ Forall2 type_defaulted bs bs')
             elements' element_buttons).
Proof.
  intros Hlen. split; [| split].
  - exists (map (with_default "type" (PyStr "postback")) buttons). split.
    + unfold send_text_with_buttons, bind, lift, emit. cbn [Py.len].
      rewrite List.length_map.
      replace (Z.of_nat (length buttons) >? 3) with false.
      * now rewrite _add_postback_info_dicts.
      * symmetry. rewrite Z.gtb_ltb. apply Z.ltb_ge. lia.
    + apply Forall2_map_self. intros b. apply DictFacts.with_default_type.
  - rewrite send_custom_message_run.
    destruct (add_postback_info_elements (PyList (map PyDict elements)))
      as [v|e] eqn:E.
    + right. destruct (add_postback_info_elements_any elements v E)
        as (es' & -> & Hes').
      now exists es'.
    + left. now exists e.
  - intros Hel.
    destruct (add_postback_info_elements_dicts elements element_buttons Hel)
      as (es' & Hrun & Hbs & _).
    exists es'. split; [| exact Hbs].
    rewrite send_custom_message_run. now rewrite Hrun.
Qed.

End BotClaims.

Lemma send_text_with_buttons_over_limit_witness :
  sent_payloads
    (snd (fst (send_text_with_buttons (PyStr "1254459154682919")
                 ("Pick one" +:+ double_newline +:+ "or type it")
                 (PyList
                    [PyDict [("title", PyStr "a")]; PyDict [("title", PyStr "b")];
                     PyDict [("title", PyStr "c")]; PyDict [("title", PyStr "d")]])
                 0%nat)))
  = [ToDict (FBText "Pick one"); ToDict (FBText "or type it")].
Proof.
  apply (send_text_with_buttons_over_limit (HS := nat) (PyStr "1254459154682919")
           ("Pick one" +:+ double_newline +:+ "or type it")
           (PyList
              [PyDict [("title", PyStr "a")]; PyDict [("title", PyStr "b")];
               PyDict [("title", PyStr "c")]; PyDict [("title", PyStr "d")]])
           4 0%nat).
  - reflexivity.
  - lia.
Defined.

Lemma buttons_sent_with_type_witness :
  (exists buttons' : list dict,
      send_text_with_buttons (PyStr "1254459154682919") "Pick one"
        (PyList
           (map PyDict
              [[("title", PyStr "yes"); ("payload", PyStr "/affirm")];
               [("type", PyStr "web_url"); ("url", PyStr "https://rasa.com")]]))
        0%nat
      = (Ok tt,
         [ClientSend
            (Payload (button_template "Pick one" (PyList (map PyDict buttons'))))
            (PyDict [("sender", PyDict [("id", PyStr "1254459154682919")])])
            "RESPONSE"],
         0%nat)
      /\ Forall2 type_defaulted
           [[("title", PyStr "yes"); ("payload", PyStr "/affirm")];
            [("type", PyStr "web_url"); ("url", PyStr "https://rasa.com")]]
           buttons')
  /\ (exists elements' : list dict,
         send_custom_message (PyStr "1254459154682919")
           (PyList
              (map PyDict
                 [[("title", PyStr "card");
                   ("buttons", PyList (map PyDict [[("title", PyStr "more")]]))]]))
           0%nat
         = (Ok tt,
            [ClientSend
               (Payload (generic_template (PyList (map PyDict elements'))))
               (_recipient_json (PyStr "1254459154682919")) "RESPONSE"],
            0%nat)
         /\ Forall2
              (fun e' bs =>
                 exists bs' : list dict,
                   Dict.get "buttons" e' = Some (PyList (map PyDict bs'))
                   /\ Forall2 type_defaulted bs bs')
              elements' [[[("title", PyStr "more")]]]).
Proof.
  destruct (buttons_sent_with_type (HS := nat) (PyStr "1254459154682919")
              "Pick one"
              [[("title", PyStr "yes"); ("payload", PyStr "/affirm")];
               [("type", PyStr "web_url"); ("url", PyStr "https://rasa.com")]]
              [[("title", PyStr "card");
                ("buttons", PyList (map PyDict [[("title", PyStr "more")]]))]]
              [[[("title", PyStr "more")]]] 0%nat)
    as (Hbuttons & _ & Helements).
  - cbn. lia.
  - split; [exact Hbuttons |]. apply Helements. repeat constructor.
Defined.

(** ** The webhook *)

Section WebhookClaims.

Context {HS : Type}.
Variable py_str : pyobj -> string.
Variable hashlib : string -> option hashlib_attr.
Variable dispatch : pyobj -> list dispatched * option exn.

Lemma for_each_message_calls
    (self : @Messenger HS) (ds : list dispatched) (s : HS) :
  raises_only_Exception self ->
  Forall message_call ds ->
  fst (fst (for_each ds (invoke py_str self) s)) = Ok tt.
Proof.
  intros Hsafe Hds. revert s.
  induction Hds as [|d ds (Hcb & Hcl & uid & Huid) _ IH]; intros s.
  - reflexivity.
  - cbn [for_each]. unfold bind.
    assert (Hd : exists tr s', invoke py_str self d s = (Ok tt, tr, s')).
    { unfold invoke. rewrite Hcb.
      destruct (message_classified py_str
                  {| page_access_token := page_access_token self;
                     on_new_message := on_new_message self;
                     thread_control_authorized := thread_control_authorized self;
                     get_user_id := user_id_of d |}
                  (event_of d) uid s Hcl Huid Hsafe)
        as (tr & s' & Hrun & _).
      now exists tr, s'. }
    destruct Hd as (tr & s' & ->).
    specialize (IH s').
    destruct (for_each ds (invoke py_str self) s') as [[r tr'] s''].
    exact IH.
Qed.

(** C4, amended: an exception raised by the handler that is an
    instance of [Exception] is caught in [_handle_user_message], logged,
    and not propagated; and a request whose signature is valid, whose
    body parses and whose events are user messages that [message]
    classifies is answered ["success"], whatever instances of
    [Exception] the handler raises on them. *)
Theorem handler_exception_swallowed
    (m : @Messenger HS) (text uid : pyobj) (s0 s1 : HS) (e : exn)
    (self : FacebookInput)
    (handler : UserMessage -> HS -> option exn * HS)
    (request : Request) (json : pyobj) (s : HS) :
  on_new_message m (user_message m text uid) s0 = (Some e, s1) ->
  is_Exception e = true ->
  (forall (um : UserMessage) (s' : HS) (e' : exn),
      fst (handler um s') = Some e' -> is_Exception e' = true) ->
  validate_hub_signature hashlib (fb_secret self) (data request)
    (or_empty (hub_signature request)) = Ok true ->
  get_json request = Ok json ->
  Forall message_call (fst (dispatch json)) ->
  snd (dispatch json) = None ->
  _handle_user_message m text uid s0
  = (Ok tt,
     [Print "Handling User Message: {}" text;
      OnNewMessage (user_message m text uid);
      LogException
        "Exception when trying to handle webhook for facebook message." e],
     s1)
  /\ fst (fst (webhook py_str hashlib dispatch self handler request s))
     = Ok "success".
Proof.
  intros He Hexc Hsafe Hvalid Hjson Hds Hend. split.
  - rewrite _handle_user_message_run. cbn zeta. now rewrite He, Hexc.
  - unfold webhook, bind, lift. rewrite Hvalid. cbn [negb]. rewrite Hjson.
    unfold handle, bind. rewrite Hend.
    match goal with
    | |- context [for_each ?ds (invoke py_str ?m) s] =>
        pose proof (for_each_message_calls m ds s Hsafe Hds) as Hrun;
        destruct (for_each ds (invoke py_str m) s) as [[r tr] s']
    end.
    cbn in Hrun. subst r. reflexivity.
Qed.

End WebhookClaims.

(** C4, counterexample: [SystemExit] is no instance of [Exception]; a
    handler that raises it is not caught by [_handle_user_message], and
    the webhook ends with the exception instead of answering. *)
Lemma handler_system_exit_propagates :
  _handle_user_message (example_messenger exiting_handler)
    (PyStr "hello") (PyStr "1254459154682919") 0%nat
  = (Raise SystemExit,
     [Print "Handling User Message: {}" (PyStr "hello");
      OnNewMessage
        (user_message (example_messenger exiting_handler)
           (PyStr "hello") (PyStr "1254459154682919"))],
     1%nat)
  /\ fst (fst (webhook str_of_text hashlib_sha1 example_dispatch
                 example_input exiting_handler
                 (example_request
                    (PyDict [("message", PyDict [("text", PyStr "hello")])]))
                 0%nat))
     = Raise SystemExit.
Proof. split; vm_compute; reflexivity. Qed.

Lemma handler_exception_swallowed_witness :
  _handle_user_message (example_messenger failing_handler)
    (PyStr "hello") (PyStr "1254459154682919") 0%nat
  = (Ok tt,
     [Print "Handling User Message: {}" (PyStr "hello");
      OnNewMessage
        (user_message (example_messenger failing_handler)
           (PyStr "hello") (PyStr "1254459154682919"));
      LogException
        "Exception when trying to handle webhook for facebook message."
        (UserException "ActionFailed")],
     1%nat)
  /\ fst (fst (webhook str_of_text hashlib_sha1 example_dispatch
                 example_input failing_handler
                 (example_request
                    (PyDict [("message", PyDict [("text", PyStr "hello")])]))
                 0%nat))
     = Ok "success".
Proof.
  apply (handler_exception_swallowed str_of_text hashlib_sha1 example_dispatch
           (example_messenger failing_handler)
           (PyStr "hello") (PyStr "1254459154682919") 0%nat 1%nat
           (UserException "ActionFailed")
           example_input failing_handler
           (example_request
              (PyDict [("message", PyDict [("text", PyStr "hello")])]))
           (PyDict [("message", PyDict [("text", PyStr "hello")])]) 0%nat).
  - reflexivity.
  - reflexivity.
  - intros um s0 e H. cbn in H. now inversion H.
  - vm_compute. reflexivity.
  - reflexivity.
  - constructor; [| constructor].
    split; [reflexivity |]. split.
    + apply classify_well_formed. reflexivity.
    + now exists (PyStr "1254459154682919").
  - reflexivity.
Defined.

(** ** Updates in place *)

Module InPlaceFacts.

(** After the loop, a dict the list refers to is the dict before with
    the default added, however often the list refers to it; the other
    dicts of the store are untouched. *)
Lemma add_default_lookup (key : string) (value : pyobj)
    (entries : list positive) (h : gmap positive dict) (r : positive) :
  InPlace.add_default key value entries h !! r
  = if decide (r ∈ entries) then with_default key value <$> h !! r
    else h !! r.
Proof.
  revert h. induction entries as [|r0 entries IH]; intros h.
  - cbn. destruct (decide (r ∈ [])) as [Hin|_]; [| reflexivity].
    now apply elem_of_nil in Hin.
  - assert (Hstep :
      exists h1 : gmap positive dict,
        InPlace.add_default key value (r0 :: entries) h
        = InPlace.add_default key value entries h1
        /\ h1 !! r0 = with_default key value <$> h !! r0
        /\ (forall r', r' <> r0 -> h1 !! r' = h !! r')).
    { cbn [InPlace.add_default].
      destruct (h !! r0) as [entry|] eqn:E.
      - destruct (Dict.has key entry) eqn:Hhas; cbn [negb].
        + exists h. repeat split. rewrite E. cbn. unfold with_default.
          now rewrite Hhas.
        + exists (<[r0 := Dict.set key value entry]> h). repeat split.
          * rewrite lookup_insert_eq. cbn. unfold with_default.
            now rewrite Hhas.
          * intros r' Hne. now rewrite lookup_insert_ne.
      - exists h. repeat split. now rewrite E. }
    destruct Hstep as (h1 & -> & Hr0 & Hother).
    rewrite IH.
    destruct (decide (r = r0)) as [->|Hne].
    + rewrite Hr0.
      destruct (decide (r0 ∈ r0 :: entries)) as [_|Hn];
        [| exfalso; apply Hn; constructor].
      destruct (decide (r0 ∈ entries)); [| reflexivity].
      destruct (h !! r0) as [entry|]; [| reflexivity].
      cbn. now rewrite DictFacts.with_default_idempotent.
    + rewrite (Hother r Hne).
      destruct (decide (r ∈ entries)) as [Hin|Hn];
        destruct (decide (r ∈ r0 :: entries)) as [Hin'|Hn'];
        try reflexivity.
      * exfalso. apply Hn'. now constructor.
      * exfalso. apply elem_of_cons in Hin' as [?|?]; congruence.
Qed.

(** The list read after the loop is the list read before it with the
    default added to each entry. *)
Lemma read_add_default (key : string) (value : pyobj)
    (entries : list positive) (h : gmap positive dict) (ds : list dict) :
  InPlace.read h entries = map Some ds ->
  InPlace.read (InPlace.add_default key value entries h) entries
  = map Some (map (with_default key value) ds).
Proof.
  intros Hread. unfold InPlace.read in *.
  assert (Hall : forall r, r ∈ entries ->
            InPlace.add_default key value entries h !! r
            = with_default key value <$> h !! r).
  { intros r Hin. rewrite add_default_lookup.
    now destruct (decide (r ∈ entries)). }
  revert ds Hread Hall.
  generalize (InPlace.add_default key value entries h) as h'.
  induction entries as [|r entries IH]; intros h' ds Hread Hall.
  - destruct ds; [reflexivity | discriminate].
  - destruct ds as [|d ds]; [discriminate |].
    cbn [map] in *. injection Hread as Hr Hrest.
    rewrite (Hall r) by constructor. rewrite Hr. cbn. f_equal.
    apply IH; [exact Hrest |].
    intros r' Hin. apply Hall. now constructor.
Qed.

(** A second run changes nothing. *)
Lemma add_default_idempotent (key : string) (value : pyobj)
    (entries : list positive) (h : gmap positive dict) :
  InPlace.add_default key value entries
    (InPlace.add_default key value entries h)
  = InPlace.add_default key value entries h.
Proof.
  apply map_eq. intros r. rewrite !add_default_lookup.
  destruct (decide (r ∈ entries)); [| reflexivity].
  destruct (h !! r) as [entry|]; [| reflexivity].
  cbn. now rewrite DictFacts.with_default_idempotent.
Qed.

(** Every item of every dict of the store is kept. *)
Lemma add_default_keeps_items (key : string) (value : pyobj)
    (entries : list positive) (h : gmap positive dict)
    (r : positive) (entry : dict) :
  h !! r = Some entry ->
  exists entry' : dict,
    InPlace.add_default key value entries h !! r = Some entry'
    /\ keeps_items entry entry'.
Proof.
  intros Hr. rewrite add_default_lookup, Hr.
  destruct (decide (r ∈ entries)).
  - exists (with_default key value entry). split; [reflexivity |].
    apply DictFacts.with_default_keeps_items.
  - exists entry. split; [reflexivity |]. now intros k v.
Qed.

End InPlaceFacts.

(** C10: the defaulting loops are idempotent and keep what they find.
    For a list of buttons held in a store, possibly with the same dict
    at several positions, the list read after [_add_postback_info] has
    the length of the list read before and holds, position by position,
    every key with the value it had; it is the list the value-level
    [_add_postback_info] returns, which a second application returns
    unchanged; and a second run in place leaves the store as the first
    left it.  The same holds of [_add_text_info] on quick replies. *)
Theorem add_info_idempotent_and_frame
    (h : gmap positive dict) (entries : list positive) (ds : list dict) :
  InPlace.read h entries = map Some ds ->
  (exists ds' : list dict,
      InPlace.read (InPlace._add_postback_info entries h) entries = map Some ds'
      /\ _add_postback_info (PyList (map PyDict ds)) = Ok (PyList (map PyDict ds'))
      /\ _add_postback_info (PyList (map PyDict ds')) = Ok (PyList (map PyDict ds'))
      /\ InPlace._add_postback_info entries (InPlace._add_postback_info entries h)
         = InPlace._add_postback_info entries h
      /\ length ds' = length ds
      /\ Forall2 keeps_items ds ds')
  /\ (exists ds' : list dict,
         InPlace.read (InPlace._add_text_info entries h) entries = map Some ds'
         /\ _add_text_info (PyList (map PyDict ds)) = Ok (PyList (map PyDict ds'))
         /\ _add_text_info (PyList (map PyDict ds')) = Ok (PyList (map PyDict ds'))
         /\ InPlace._add_text_info entries (InPlace._add_text_info entries h)
            = InPlace._add_text_info entries h
         /\ length ds' = length ds
         /\ Forall2 keeps_items ds ds').
Proof.
  intros Hread. split.
  - exists (map (with_default "type" (PyStr "postback")) ds).
    split; [exact (InPlaceFacts.read_add_default _ _ _ _ _ Hread) |].
    split; [apply _add_postback_info_dicts |].
    split; [now rewrite _add_postback_info_dicts,
              DictFacts.map_with_default_idempotent |].
    split; [apply InPlaceFacts.add_default_idempotent |].
    split; [apply List.length_map |].
    apply Forall2_map_self. intros b. apply DictFacts.with_default_keeps_items.
  - exists (map (with_default "content_type" (PyStr "text")) ds).
    split; [exact (InPlaceFacts.read_add_default _ _ _ _ _ Hread) |].
    split; [apply _add_text_info_dicts |].
    split; [now rewrite _add_text_info_dicts,
              DictFacts.map_with_default_idempotent |].
    split; [apply InPlaceFacts.add_default_idempotent |].
    split; [apply List.length_map |].
    apply Forall2_map_self. intros b. apply DictFacts.with_default_keeps_items.
Qed.

Lemma add_info_idempotent_and_frame_witness :
  exists ds' : list dict,
    InPlace.read
      (InPlace._add_postback_info [1%positive; 2%positive; 1%positive]
         (<[1%positive := [("title", PyStr "yes")]]>
            (<[2%positive := [("type", PyStr "web_url")]]> ∅)))
      [1%positive; 2%positive; 1%positive]
    = map Some ds'
    /\ _add_postback_info
         (PyList
            (map PyDict
               [[("title", PyStr "yes")]; [("type", PyStr "web_url")];
                [("title", PyStr "yes")]]))
       = Ok (PyList (map PyDict ds'))
    /\ _add_postback_info (PyList (map PyDict ds')) = Ok (PyList (map PyDict ds'))
    /\ InPlace._add_postback_info [1%positive; 2%positive; 1%positive]
         (InPlace._add_postback_info [1%positive; 2%positive; 1%positive]
            (<[1%positive := [("title", PyStr "yes")]]>
               (<[2%positive := [("type", PyStr "web_url")]]> ∅)))
       = InPlace._add_postback_info [1%positive; 2%positive; 1%positive]
           (<[1%positive := [("title", PyStr "yes")]]>
              (<[2%positive := [("type", PyStr "web_url")]]> ∅))
    /\ length ds' = 3%nat
    /\ Forall2 keeps_items
         [[("title", PyStr "yes")]; [("type", PyStr "web_url")];
          [("title", PyStr "yes")]]
         ds'.
Proof.
  apply (add_info_idempotent_and_frame
           (<[1%positive := [("title", PyStr "yes")]]>
              (<[2%positive := [("type", PyStr "web_url")]]> ∅))
           [1%positive; 2%positive; 1%positive]
           [[("title", PyStr "yes")]; [("type", PyStr "web_url")];
            [("title", PyStr "yes")]]).
  vm_compute. reflexivity.
Defined.

Example in_place_shared_button :
  InPlace.read
    (InPlace._add_postback_info [1%positive; 2%positive; 1%positive]
       (<[1%positive := [("title", PyStr "yes")]]>
          (<[2%positive := [("type", PyStr "web_url")]]> ∅)))
    [1%positive; 2%positive; 1%positive]
  = [Some [("title", PyStr "yes"); ("type", PyStr "postback")];
     Some [("type", PyStr "web_url")];
     Some [("title", PyStr "yes"); ("type", PyStr "postback")]].
Proof. vm_compute. reflexivity. Qed.

(** * Further properties *)

(** ** The pieces of a split *)

Module SplitFacts.

Lemma prefix_app (p v s : string) :
  String.prefix p v = true -> String.prefix p (v +:+ s) = true.
Proof.
  revert v. induction p as [|a p IH]; intros v H.
  - now destruct (v +:+ s).
  - destruct v as [|b v]; [discriminate |].
    rewrite PyStrFacts.append_cons. cbn [String.prefix] in *.
    destruct (ascii_dec a b); [now apply IH | discriminate].
Qed.

(** An occurrence of [sep] in [cur] starts at a suffix of [cur]. *)
Lemma contains_suffix (sep cur : string) :
  PyStr.contains sep cur = true ->
  exists u v : string, cur = u +:+ v /\ String.prefix sep v = true.
Proof.
  induction cur as [|c cur IH]; cbn [PyStr.contains]; intros H.
  - rewrite orb_false_r in H. now exists "", "".
  - apply orb_true_iff in H as [H|H].
    + now exists "", (String c cur).
    + destruct (IH H) as (u & v & -> & Hv).
      now exists (String c u), v.
Qed.

Lemma snoc_split (cur u v : string) (c : ascii) :
  cur +:+ String c "" = u +:+ v ->
  v <> "" ->
  exists v' : string, v = v' +:+ String c "" /\ cur = u +:+ v'.
Proof.
  revert u. induction cur as [|x cur IH]; intros u H Hv.
  - rewrite PyStrFacts.append_nil_l in H. destruct u as [|y u].
    + rewrite PyStrFacts.append_nil_l in H. exists "". now split.
    + rewrite PyStrFacts.append_cons in H. injection H as _ H.
      destruct u as [|z u].
      * rewrite PyStrFacts.append_nil_l in H. congruence.
      * rewrite PyStrFacts.append_cons in H. discriminate.
  - rewrite PyStrFacts.append_cons in H. destruct u as [|y u].
    + rewrite PyStrFacts.append_nil_l in H. exists (String x cur).
      now split.
    + rewrite PyStrFacts.append_cons in H. injection H as -> H.
      destruct (IH u H Hv) as (v' & -> & ->).
      now exists v'.
Qed.

Lemma starts_clean_nil (sep s : string) : starts_clean sep "" s.
Proof.
  intros u v H Hv. destruct u as [|x u].
  - rewrite PyStrFacts.append_nil_l in H. congruence.
  - rewrite PyStrFacts.append_cons in H. discriminate.
Qed.

Lemma starts_clean_contains (a : ascii) (sep' cur s : string) :
  starts_clean (String a sep') cur s -> PyStr.contains (String a sep') cur = false.
Proof.
  intros Hc. destruct (PyStr.contains (String a sep') cur) eqn:E;
    [| reflexivity].
  destruct (contains_suffix _ _ E) as (u & v & -> & Hv).
  assert (Hne : v <> "") by (intros ->; discriminate).
  rewrite <- (Hc u v eq_refl Hne). symmetry. now apply prefix_app.
Qed.

Lemma starts_clean_snoc (sep cur s : string) (c : ascii) :
  starts_clean sep cur (String c s) ->
  String.prefix sep (String c s) = false ->
  starts_clean sep (cur +:+ String c "") s.
Proof.
  intros Hc Hp u v H Hv.
  destruct (snoc_split cur u v c H Hv) as (v' & -> & ->).
  rewrite PyStrFacts.append_assoc.
  change (String c "" +:+ s) with (String c s).
  destruct v' as [|x v']; [exact Hp |].
  apply (Hc u (String x v') eq_refl). discriminate.
Qed.

Lemma split_aux_pieces (a : ascii) (sep' : string) (k : nat) (cur s p : string) :
  (k = O -> starts_clean (String a sep') cur s) ->
  (k <> O -> cur = "") ->
  In p (PyStr.split_aux (String a sep') k cur s) ->
  PyStr.contains (String a sep') p = false.
Proof.
  revert k cur. induction s as [|c s IH]; intros k cur H0 Hk Hin.
  - cbn [PyStr.split_aux] in Hin. destruct Hin as [<-|[]].
    destruct k as [|k].
    + apply (starts_clean_contains a sep' cur ""). now apply H0.
    + now rewrite Hk.
  - destruct k as [|k]; cbn [PyStr.split_aux] in Hin.
    + destruct (String.prefix (String a sep') (String c s)) eqn:Hp.
      * destruct Hin as [<-|Hin].
        -- apply (starts_clean_contains a sep' cur (String c s)). now apply H0.
        -- apply (IH (String.length (String a sep') - 1)%nat "");
             [intros _; apply starts_clean_nil | reflexivity | exact Hin].
      * apply (IH O (cur +:+ String c "")); [| congruence | exact Hin].
        intros _. apply starts_clean_snoc; [now apply H0 | exact Hp].
    + apply (IH k cur); [| | exact Hin].
      * intros ->. rewrite Hk by discriminate. apply starts_clean_nil.
      * intros _. now apply Hk.
Qed.

(** No piece of a split holds the separator. *)
Lemma split_pieces (a : ascii) (sep' s p : string) :
  In p (PyStr.split (String a sep') s) ->
  PyStr.contains (String a sep') p = false.
Proof.
  apply split_aux_pieces; [intros _; apply starts_clean_nil | congruence].
Qed.

End SplitFacts.

(** ** The verifier and the webhook *)

Module HexDigitFacts.

Lemma hex_digit_high_lower (b : byte) :
  is_lower_hex (HMAC.hex_digit (Z.shiftr (byte_to_Z b) 4)) = true.
Proof. destruct b; vm_compute; reflexivity. Qed.

Lemma hex_digit_low_lower (b : byte) :
  is_lower_hex (HMAC.hex_digit (Z.land (byte_to_Z b) 15)) = true.
Proof. destruct b; vm_compute; reflexivity. Qed.

Lemma hex_lower (bs : bytes) :
  Forall (fun c => is_lower_hex c = true) (list_ascii_of_string (HMAC.hex bs)).
Proof.
  induction bs as [|b bs IH]; [constructor |].
  cbn [HMAC.hex list_ascii_of_string].
  constructor; [apply hex_digit_high_lower |].
  constructor; [apply hex_digit_low_lower | exact IH].
Qed.

End HexDigitFacts.

Section VerifierFacts.

Context {HS : Type}.
Variable py_str : pyobj -> string.
Variable hashlib : string -> option hashlib_attr.
Variable dispatch : pyobj -> list dispatched * option exn.

(** X1: the verifier answers true exactly on the headers
    [method=signature] in which neither part holds an ['='], [method]
    names a hash constructor of [hashlib] and [signature] is the
    hexadecimal HMAC of the body under the secret for that hash. *)
Theorem validate_hub_signature_true_iff
    (app_secret : string) (request_payload : bytes) (header : string) :
  validate_hub_signature hashlib app_secret request_payload header = Ok true
  <-> exists (method sig : string) (d : digest_module),
        header = method +:+ "=" +:+ sig
        /\ PyStr.contains "=" method = false
        /\ PyStr.contains "=" sig = false
        /\ hashlib method = Some (HashConstructor d)
        /\ sig = HMAC.hexdigest d (utf8 app_secret) request_payload.
Proof.
  split.
  - unfold validate_hub_signature. intros H.
    destruct (PyStr.split "=" header) as [|a [|b [|c l]]] eqn:E;
      try discriminate.
    cbn [unpack2] in H. unfold getattr_hashlib in H.
    destruct (hashlib a) as [[d|e]|] eqn:Ha; try discriminate.
    cbn in H.
    destruct (String.eqb b (HMAC.hexdigest d (utf8 app_secret) request_payload))
      eqn:Eb; [| discriminate].
    apply String.eqb_eq in Eb.
    exists a, b, d. repeat split.
    + rewrite <- (PyStrFacts.join_split "=" "" header), E. reflexivity.
    + apply (SplitFacts.split_pieces "=" "" header). rewrite E. now left.
    + apply (SplitFacts.split_pieces "=" "" header). rewrite E. right. now left.
    + exact Ha.
    + exact Eb.
  - intros (method & sig & d & -> & Hm & _ & Hh & ->).
    now apply validate_hub_signature_match.
Qed.

(** X2: a header with no ['='], or with two or more, is answered
    false, without raising, whatever the secret, the body and
    [hashlib]. *)
Theorem validate_hub_signature_malformed
    (app_secret : string) (request_payload : bytes) (header : string) :
  (PyStr.contains "=" header = false
   \/ exists a b c : string,
        header = a +:+ "=" +:+ b +:+ "=" +:+ c
        /\ PyStr.contains "=" a = false /\ PyStr.contains "=" b = false) ->
  validate_hub_signature hashlib app_secret request_payload header = Ok false.
Proof.
  intros [H | (a & b & c & -> & Ha & Hb)].
  - now apply validate_hub_signature_no_equals.
  - now apply validate_hub_signature_many_equals.
Qed.

(** X3: a signature that is accepted is made of the digits [0-9a-f]:
    the comparison is on the lower-case digest, so a signature with an
    upper-case or any other character is not accepted. *)
Theorem validate_hub_signature_lower_hex
    (app_secret : string) (request_payload : bytes) (method sig : string) :
  PyStr.contains "=" method = false ->
  validate_hub_signature hashlib app_secret request_payload
    (method +:+ "=" +:+ sig) = Ok true ->
  Forall (fun c => is_lower_hex c = true) (list_ascii_of_string sig).
Proof.
  intros Hm H. rewrite (validate_hub_signature_header _ _ _ _ _ Hm) in H.
  destruct (PyStr.split "=" sig) as [|x [|y l]]; try discriminate.
  unfold getattr_hashlib in H.
  destruct (hashlib method) as [[d|e]|]; try discriminate.
  cbn in H.
  destruct (String.eqb sig (HMAC.hexdigest d (utf8 app_secret) request_payload))
    eqn:E; [| discriminate].
  apply String.eqb_eq in E. rewrite E. apply HexDigitFacts.hex_lower.
Qed.

(** X4: a request without the signature header, with an empty one or
    with one that holds no ['='] is answered ["not validated"]: a
    warning is logged, the body is not parsed, nothing is dispatched and
    the state of the handler is unchanged. *)
Theorem webhook_refuses_unsigned
    (self : FacebookInput)
    (handler : UserMessage -> HS -> option exn * HS)
    (request : Request) (s : HS) :
  PyStr.contains "=" (or_empty (hub_signature request)) = false ->
  webhook py_str hashlib dispatch self handler request s
  = (Ok "not validated",
     [LogWarning
        "Wrong fb secret! Make sure this matches the secret in your facebook app settings"
        None],
     s).
Proof.
  intros H. unfold webhook, bind, lift, emit, ret.
  now rewrite (validate_hub_signature_no_equals hashlib _ _ _ H).
Qed.

(** X5: the webhook answers ["success"], calls the handler or calls the
    client only after the signature was verified. *)
Theorem webhook_acts_only_when_verified
    (self : FacebookInput)
    (handler : UserMessage -> HS -> option exn * HS)
    (request : Request) (s : HS) :
  fst (fst (webhook py_str hashlib dispatch self handler request s))
  = Ok "success"
  \/ interactions
       (snd (fst (webhook py_str hashlib dispatch self handler request s)))
     <> [] ->
  validate_hub_signature hashlib (fb_secret self) (data request)
    (or_empty (hub_signature request)) = Ok true.
Proof.
  unfold webhook, bind, lift, emit, ret.
  destruct (validate_hub_signature hashlib (fb_secret self) (data request)
              (or_empty (hub_signature request))) as [[|]|e];
    cbn; intros [H|H]; try reflexivity; try discriminate; now destruct H.
Qed.

Lemma for_each_receipts (m : @Messenger HS) (ds : list dispatched) (s : HS) :
  Forall (fun d => is_receipt (callback_of d) = true) ds ->
  for_each ds (invoke py_str m) s = (Ok tt, [], s).
Proof.
  induction 1 as [|d ds Hd _ IH]; [reflexivity |].
  cbn [for_each]. unfold bind. unfold invoke at 1.
  destruct (callback_of d); try discriminate; cbn; now rewrite IH.
Qed.

(** X6: a verified request whose events are all deliveries, reads,
    account linkings or opt-ins is answered ["success"] and has no
    effect: nothing is printed or logged, no call is made and the state
    of the handler is unchanged. *)
Theorem webhook_receipts_no_effect
    (self : FacebookInput)
    (handler : UserMessage -> HS -> option exn * HS)
    (request : Request) (json : pyobj) (s : HS) :
  validate_hub_signature hashlib (fb_secret self) (data request)
    (or_empty (hub_signature request)) = Ok true ->
  get_json request = Ok json ->
  Forall (fun d => is_receipt (callback_of d) = true) (fst (dispatch json)) ->
  snd (dispatch json) = None ->
  webhook py_str hashlib dispatch self handler request s
  = (Ok "success", [], s).
Proof.
  intros Hv Hj Hd He. unfold webhook, bind, lift. rewrite Hv. cbn [negb].
  rewrite Hj. unfold handle, bind. rewrite He.
  now rewrite (for_each_receipts _ _ _ Hd).
Qed.

End VerifierFacts.

(** ** What the callbacks do on any event *)

Ltac break_match :=
  match goal with
  | |- context [match ?x with _ => _ end] =>
      lazymatch x with
      | context [match _ with _ => _ end] => fail
      | _ => destruct x eqn:?
      end
  end.

Section CallbackFacts.

Context {HS : Type}.
Variable py_str : pyobj -> string.

(** The shapes of a run of [message]: it raises before any call, or
    logs the event as unhandled, or hands one message to the handler. *)
Lemma message_shape (self : @Messenger HS) (ev : pyobj) (s : HS) :
  (exists e : exn,
      message py_str self ev s = (Raise e, [Print "Message: {}" ev], s))
  \/ message py_str self ev s
     = (Ok tt,
        [Print "Message: {}" ev;
         LogWarning
           "Received a message from facebook that we can not handle. Message: {}"
           (Some ev)],
        s)
  \/ (exists (text uid : pyobj) (r : result unit) (tr : list event) (s' : HS),
         get_user_id self = Ok uid
         /\ _handle_user_message self text uid s = (r, tr, s')
         /\ message py_str self ev s = (r, Print "Message: {}" ev :: tr, s')).
Proof.
  unfold message, message_text, bind, lift, emit, ret.
  set (H := _handle_user_message self).
  repeat break_match; subst; cbn [app] in *;
    repeat match goal with
           | E : (_, _, _) = (_, _, _) |- _ => injection E as <- <- <-
           end;
    rewrite ?app_nil_r;
    try (left; eexists; reflexivity);
    try (right; left; reflexivity);
    try match goal with u : unit |- _ => destruct u end;
    (right; right; do 5 eexists; split; [reflexivity |];
     split; [eassumption | reflexivity]).
Qed.

Lemma postback_shape (self : @Messenger HS) (ev : pyobj) (s : HS) :
  (exists e : exn,
      postback self ev s = (Raise e, [Print "Handling postback: {}" ev], s))
  \/ (exists (text uid : pyobj) (r : result unit) (tr : list event) (s' : HS),
         (let* p := Py.getitem ev "postback" in
          Py.getitem p "payload")%result = Ok text
         /\ get_user_id self = Ok uid
         /\ _handle_user_message self text uid s = (r, tr, s')
         /\ postback self ev s
            = (r, Print "Handling postback: {}" ev :: tr, s')).
Proof.
  unfold postback, bind, lift, emit, ret.
  set (H := _handle_user_message self).
  repeat break_match; subst; cbn [app] in *;
    repeat match goal with
           | E : (_, _, _) = (_, _, _) |- _ => injection E as <- <- <-
           end;
    try (left; eexists; reflexivity);
    (right; do 5 eexists; split; [reflexivity |]; split; [reflexivity |];
     split; [eassumption | reflexivity]).
Qed.

(** The shapes of a run of [handover]. *)
Lemma handover_shape (self : @Messenger HS) (ev : pyobj) (s : HS) :
  (exists e : exn, handover self ev s = (Raise e, [Print "Handover: {}" ev], s))
  \/ handover self ev s = (Ok tt, [Print "Handover: {}" ev], s)
  \/ handover self ev s
     = (Ok tt,
        [Print "Handover: {}" ev;
         LogWarning
           "Received a request thread control from facebookfrom an app that is not authorized: {}"
           (Some ev)],
        s)
  \/ (exists (c uid : pyobj) (r : result unit) (tr : list event) (s' : HS),
         _is_request_thread_control ev = Ok c
         /\ Py.truthy c = false
         /\ get_user_id self = Ok uid
         /\ _handle_user_message self (PyStr "/reconnect_user") uid s
            = (r, tr, s')
         /\ handover self ev s = (r, Print "Handover: {}" ev :: tr, s'))
  \/ (exists (app_id metadata uid : pyobj) (r : result unit)
             (tr : list event) (s' : HS),
         Py.in_ints app_id (thread_control_authorized self) = true
         /\ get_user_id self = Ok uid
         /\ _handle_user_message self (PyStr "/passed_thread_control") uid s
            = (r, tr, s')
         /\ handover self ev s
            = (r,
               Print "Handover: {}" ev
               :: Print "Recipient ID: {}" uid
               :: ClientPassThreadControl app_id metadata
                    (PyDict [("recipient", PyDict [("id", uid)])])
               :: tr,
               s')).
Proof.
  remember (handover self ev s) as R eqn:E. revert E.
  unfold handover, send_pass_thread_control, bind, lift, emit, ret.
  set (H := _handle_user_message self).
  repeat (break_match; cbv beta).
  all: intros ->.
  all: subst; cbn [app negb] in *;
    repeat match goal with
           | E : (_, _, _) = (_, _, _) |- _ => injection E as <- <- <-
           | E : Ok _ = Ok _ |- _ => injection E as <-
           | E : negb _ = true |- _ => apply negb_true_iff in E
           | E : negb _ = false |- _ => apply negb_false_iff in E
           end;
    try discriminate;
    try (left; eexists; reflexivity);
    try (right; left; reflexivity);
    try (right; right; left; reflexivity);
    try (right; right; right; left; do 5 eexists;
         split; [reflexivity |]; split; [assumption |];
         split; [reflexivity |]; split; [eassumption | reflexivity]);
    try (right; right; right; right; do 6 eexists;
         split; [eassumption |]; split; [reflexivity |];
         split; [eassumption | reflexivity]).
Qed.

End CallbackFacts.

Section CallbackClaims.

Context {HS : Type}.
Variable py_str : pyobj -> string.

Lemma interactions_handle (self : @Messenger HS) (text uid : pyobj) (s : HS) :
  interactions (snd (fst (_handle_user_message self text uid s)))
  = [OnNewMessage (user_message self text uid)].
Proof.
  rewrite _handle_user_message_run. cbn zeta.
  destruct (on_new_message self _ s) as [[e|] s']; [| reflexivity].
  now destruct (is_Exception e).
Qed.

(** X7: whatever the event, [message] makes no call on the client, and
    hands the handler nothing or exactly one message, built for the
    sender id that [get_user_id] answers. *)
Theorem message_one_forward_no_client_call
    (self : @Messenger HS) (ev : pyobj) (s : HS) :
  client_calls (snd (fst (message py_str self ev s))) = []
  /\ (forwards (snd (fst (message py_str self ev s))) = []
      \/ exists text uid : pyobj,
           get_user_id self = Ok uid
           /\ forwards (snd (fst (message py_str self ev s)))
              = [user_message self text uid]).
Proof.
  destruct (message_shape py_str self ev s)
    as [(e & ->) | [-> | (text & uid & r & tr & s' & Hu & Hh & ->)]].
  - split; [reflexivity | now left].
  - split; [reflexivity | now left].
  - destruct (_handle_user_message_trace self text uid s) as (F & C & _).
    rewrite Hh in F, C. cbn [fst snd] in *. split.
    + exact C.
    + right. now exists text, uid.
Qed.

(** X8: when the sender id cannot be read, [message], [postback] and
    [handover] call neither the handler nor the client. *)
Theorem no_sender_id_no_interaction
    (self : @Messenger HS) (ev : pyobj) (s : HS) (e : exn) :
  get_user_id self = Raise e ->
  interactions (snd (fst (message py_str self ev s))) = []
  /\ interactions (snd (fst (postback self ev s))) = []
  /\ interactions (snd (fst (handover self ev s))) = [].
Proof.
  intros Hu. split; [| split].
  - destruct (message_shape py_str self ev s)
      as [(e' & ->) | [-> | (text & uid & r & tr & s' & Hu' & _)]];
      [reflexivity | reflexivity | congruence].
  - destruct (postback_shape self ev s)
      as [(e' & ->) | (text & uid & r & tr & s' & _ & Hu' & _)];
      [reflexivity | congruence].
  - destruct (handover_shape self ev s)
      as [(e' & ->) | [-> | [-> |
          [(c & uid & r & tr & s' & _ & _ & Hu' & _)
          | (a & m & uid & r & tr & s' & _ & Hu' & _)]]]];
      try reflexivity; congruence.
Qed.

(** X9: whatever the event, [handover] calls nothing, or hands the
    handler ["/reconnect_user"], or passes thread control to an app of
    the authorized list and then hands the handler
    ["/passed_thread_control"]: control is passed to no other app, and
    before the handler is told. *)
Theorem handover_interactions
    (self : @Messenger HS) (ev : pyobj) (s : HS) :
  interactions (snd (fst (handover self ev s))) = []
  \/ (exists uid : pyobj,
         get_user_id self = Ok uid
         /\ interactions (snd (fst (handover self ev s)))
            = [OnNewMessage (user_message self (PyStr "/reconnect_user") uid)])
  \/ (exists app_id metadata uid : pyobj,
         Py.in_ints app_id (thread_control_authorized self) = true
         /\ get_user_id self = Ok uid
         /\ interactions (snd (fst (handover self ev s)))
            = [ClientPassThreadControl app_id metadata
                 (PyDict [("recipient", PyDict [("id", uid)])]);
               OnNewMessage
                 (user_message self (PyStr "/passed_thread_control") uid)]).
Proof.
  destruct (handover_shape self ev s)
    as [(e' & ->) | [-> | [-> |
        [(c & uid & r & tr & s' & _ & _ & Hu & Hh & ->)
        | (a & m & uid & r & tr & s' & Hin & Hu & Hh & ->)]]]].
  - now left.
  - now left.
  - now left.
  - right; left. exists uid. split; [exact Hu |].
    pose proof (interactions_handle self (PyStr "/reconnect_user") uid s) as I.
    rewrite Hh in I. exact I.
  - right; right. exists a, m, uid. split; [exact Hin |]. split; [exact Hu |].
    pose proof (interactions_handle self (PyStr "/passed_thread_control") uid s)
      as I.
    rewrite Hh in I. cbn [fst snd] in *.
    change (interactions (Print ?f ?x :: Print ?g ?y :: ?c :: ?t))
      with (c :: interactions t).
    now rewrite I.
Qed.

(** X10: an event that [_is_request_thread_control] recognises is
    handled as a request only, also when it carries a
    [pass_thread_control] entry: ["/reconnect_user"] is not handed to the
    handler. *)
Theorem handover_request_first
    (self : @Messenger HS) (ev c : pyobj) (s : HS) :
  _is_request_thread_control ev = Ok c ->
  Py.truthy c = true ->
  Forall (fun um => text um = PyStr "/passed_thread_control")
    (forwards (snd (fst (handover self ev s)))).
Proof.
  intros Hc Tc.
  destruct (handover_shape self ev s)
    as [(e' & ->) | [-> | [-> |
        [(c' & uid & r & tr & s' & Hc' & Tc' & _)
        | (a & m & uid & r & tr & s' & Hin & Hu & Hh & ->)]]]];
    try (cbn; constructor).
  - congruence.
  - destruct (_handle_user_message_trace self (PyStr "/passed_thread_control")
                uid s) as (F & _).
    rewrite Hh in F. cbn [fst snd] in *.
    change (forwards (Print ?f ?x :: Print ?g ?y :: ClientPassThreadControl ?p ?q ?z :: ?t))
      with (forwards t).
    rewrite F. constructor; [reflexivity | constructor].
Qed.

(** X11: [postback] hands the payload of the postback to the handler as
    it is, whatever it is and however long: the 512 character limit of
    [message] does not apply. *)
Theorem postback_forwards_payload
    (self : @Messenger HS) (ev payload uid : pyobj) (s : HS) :
  (let* p := Py.getitem ev "postback" in Py.getitem p "payload")%result
  = Ok payload ->
  get_user_id self = Ok uid ->
  forwards (snd (fst (postback self ev s))) = [user_message self payload uid]
  /\ client_calls (snd (fst (postback self ev s))) = [].
Proof.
  intros Hp Hu.
  pose proof (_handle_user_message_trace self payload uid s) as (F & C & _).
  unfold postback, bind, lift, emit, ret. rewrite Hp, Hu.
  cbn -[_handle_user_message].
  destruct (_handle_user_message self payload uid s) as [[r tr] s'].
  cbn [fst snd app] in *. split; assumption.
Qed.

(** X12: on an event without a [postback] entry, or whose postback has
    no [payload], [postback] raises [KeyError] before it calls the
    handler. *)
Theorem postback_without_payload
    (self : @Messenger HS) (d : dict) (s : HS) :
  Dict.get "postback" d = None
  \/ (exists p : dict,
         Dict.get "postback" d = Some (PyDict p)
         /\ Dict.get "payload" p = None) ->
  postback self (PyDict d) s
  = (Raise KeyError, [Print "Handling postback: {}" (PyDict d)], s).
Proof.
  intros [H | (p & H & Hp)];
    unfold postback, bind, lift, emit, ret; cbn; rewrite H; cbn;
    rewrite ?Hp; reflexivity.
Qed.

End CallbackClaims.

(** ** Events by their content *)

Section EventFacts.

Context {HS : Type}.
Variable py_str : pyobj -> string.

Lemma get_nonempty (k : string) (d : dict) (v : pyobj) :
  Dict.get k d = Some v -> Py.truthy (PyDict d) = true.
Proof. now destruct d. Qed.

(** An event whose message is marked as an echo is no user message,
    whatever its text. *)
Lemma echo_is_no_user_message (d md : dict) (t e : pyobj) :
  Dict.get "message" d = Some (PyDict md) ->
  Dict.get "text" md = Some t ->
  Dict.get "is_echo" md = Some e ->
  Py.truthy e = true ->
  exists c : pyobj,
    _is_user_message (PyDict d) = Ok c /\ Py.truthy c = false.
Proof.
  intros Hm Ht He Te.
  unfold _is_user_message, Py.and_, Py.not_, Py.get, Py.getitem, rbind.
  rewrite Hm. rewrite (get_nonempty _ _ _ Ht). rewrite Ht, He, Te.
  destruct (Py.truthy t) eqn:Tt; eexists; split; try reflexivity; assumption.
Qed.

(** X13: an echo of a text the page sent itself is not handed to the
    handler: an event marked [is_echo] that carries a text and no
    attachment is logged as unhandled, and nothing else happens. *)
Theorem message_echo_not_forwarded
    (self : @Messenger HS) (d md : dict) (t e : pyobj) (s : HS) :
  Dict.get "message" d = Some (PyDict md) ->
  Dict.get "text" md = Some t ->
  Dict.get "is_echo" md = Some e ->
  Py.truthy e = true ->
  (forall a : pyobj, Dict.get "attachments" md = Some a -> Py.truthy a = false) ->
  message py_str self (PyDict d) s
  = (Ok tt,
     [Print "Message: {}" (PyDict d);
      LogWarning
        "Received a message from facebook that we can not handle. Message: {}"
        (Some (PyDict d))],
     s).
Proof.
  intros Hm Ht He Te Ha.
  destruct (echo_is_no_user_message d md t e Hm Ht He Te) as (c & H1 & T1).
  assert (exists a : pyobj,
             Py.get (PyDict md) "attachments" = Ok a /\ Py.truthy a = false)
    as (a & Hga & Ta).
  { unfold Py.get. destruct (Dict.get "attachments" md) as [a|] eqn:E.
    - exists a. split; [reflexivity | now apply Ha].
    - now exists PyNone. }
  apply (message_unhandled py_str self (PyDict d) c a a s H1 T1); try exact Ta.
  - unfold _is_audio_message, Py.and_, Py.getitem, rbind.
    cbn [Py.get]. rewrite Hm. rewrite (get_nonempty _ _ _ Ht).
    now rewrite Hga, Ta.
  - unfold _is_user_location, Py.and_, Py.getitem, rbind.
    cbn [Py.get]. rewrite Hm. rewrite (get_nonempty _ _ _ Ht).
    now rewrite Hga, Ta.
Qed.

(** X14: the echo mark guards the text only.  An event marked
    [is_echo] whose first attachment is an audio is handled as a voice
    message: the url of that attachment is handed to the handler, and
    the attachments after the first are not looked at. *)
Theorem message_echo_audio_forwarded
    (self : @Messenger HS) (d md a0 p : dict) (rest : list pyobj)
    (t e url uid : pyobj) (s : HS) :
  Dict.get "message" d = Some (PyDict md) ->
  Dict.get "text" md = Some t ->
  Dict.get "is_echo" md = Some e ->
  Py.truthy e = true ->
  Dict.get "attachments" md = Some (PyList (PyDict a0 :: rest)) ->
  Dict.get "type" a0 = Some (PyStr "audio") ->
  Dict.get "payload" a0 = Some (PyDict p) ->
  Dict.get "url" p = Some url ->
  get_user_id self = Ok uid ->
  forwards (snd (fst (message py_str self (PyDict d) s)))
  = [user_message self url uid]
  /\ client_calls (snd (fst (message py_str self (PyDict d) s))) = [].
Proof.
  intros Hm Ht He Te Ha Hty Hp Hurl Hu.
  destruct (echo_is_no_user_message d md t e Hm Ht He Te) as (c & H1 & T1).
  rewrite (message_audio py_str self (PyDict d) c (PyBool true) (PyDict a0)
             url uid s H1 T1).
  - cbn zeta. cbn [fst snd].
    destruct (_handle_user_message_trace self url uid s) as (F & C & _).
    split; [exact F | exact C].
  - unfold _is_audio_message, Py.and_, Py.get, Py.getitem, Py.getitem_int,
      rbind.
    rewrite Hm. rewrite (get_nonempty _ _ _ Ht).
    rewrite Ha. cbn [Py.truthy]. rewrite index_first, Hty. reflexivity.
  - reflexivity.
  - unfold Py.getitem, Py.getitem_int, rbind. rewrite Hm, Ha.
    now rewrite index_first.
  - unfold Py.getitem, rbind. now rewrite Hp, Hurl.
  - exact Hu.
Qed.

(** X15: a location without text is handed to the handler as the text
    made of the latitude and the longitude, rendered by [str] and
    separated by one space. *)
Theorem message_location_text
    (self : @Messenger HS) (d md a0 p co : dict) (rest : list pyobj)
    (lat long uid : pyobj) (s : HS) :
  Dict.get "message" d = Some (PyDict md) ->
  Dict.get "text" md = None ->
  Dict.get "attachments" md = Some (PyList (PyDict a0 :: rest)) ->
  Dict.get "type" a0 = Some (PyStr "location") ->
  Dict.get "payload" a0 = Some (PyDict p) ->
  Dict.get "coordinates" p = Some (PyDict co) ->
  Dict.get "lat" co = Some lat ->
  Dict.get "long" co = Some long ->
  get_user_id self = Ok uid ->
  forwards (snd (fst (message py_str self (PyDict d) s)))
  = [user_message self (PyStr (py_str lat +:+ " " +:+ py_str long)) uid].
Proof.
  intros Hm Ht Ha Hty Hp Hco Hlat Hlong Hu.
  rewrite (message_location py_str self (PyDict d) PyNone (PyBool false)
             (PyBool true) (PyDict a0) (PyDict co) lat long uid s).
  - cbn zeta. cbn [fst snd].
    now destruct (_handle_user_message_trace self
                    (PyStr (py_str lat +:+ " " +:+ py_str long)) uid s).
  - unfold _is_user_message, Py.and_, Py.not_, Py.get, Py.getitem, rbind.
    rewrite Hm. rewrite (get_nonempty _ _ _ Ha).
    now rewrite Ht.
  - reflexivity.
  - unfold _is_audio_message, Py.and_, Py.get, Py.getitem, Py.getitem_int,
      rbind.
    rewrite Hm. rewrite (get_nonempty _ _ _ Ha).
    rewrite Ha. cbn [Py.truthy]. rewrite index_first, Hty. reflexivity.
  - reflexivity.
  - unfold _is_user_location, Py.and_, Py.get, Py.getitem, Py.getitem_int,
      rbind.
    rewrite Hm. rewrite (get_nonempty _ _ _ Ha).
    rewrite Ha. cbn [Py.truthy]. rewrite index_first, Hty. reflexivity.
  - reflexivity.
  - unfold Py.getitem, Py.getitem_int, rbind. rewrite Hm, Ha.
    now rewrite index_first.
  - unfold Py.getitem, rbind. now rewrite Hp, Hco.
  - unfold Py.getitem. now rewrite Hlat.
  - unfold Py.getitem. now rewrite Hlong.
  - exact Hu.
Qed.

(** X16: a request for thread control from an authorized app that
    carries no [metadata] raises [KeyError] before the client is
    called: control is not passed and the handler is not told. *)
Theorem handover_request_without_metadata
    (self : @Messenger HS) (d r : dict) (app_id uid : pyobj) (s : HS) :
  Dict.get "request_thread_control" d = Some (PyDict r) ->
  Dict.get "requested_owner_app_id" r = Some app_id ->
  Py.truthy app_id = true ->
  Py.in_ints app_id (thread_control_authorized self) = true ->
  Dict.get "metadata" r = None ->
  get_user_id self = Ok uid ->
  handover self (PyDict d) s
  = (Raise KeyError, [Print "Handover: {}" (PyDict d)], s).
Proof.
  intros Hr Ha Ta Hin Hmeta Hu.
  unfold handover, _is_request_thread_control, Py.and_, Py.get, Py.getitem,
    rbind, bind, lift, emit, ret.
  rewrite Hr. rewrite (get_nonempty _ _ _ Ha).
  rewrite Ha, Ta, Hin. cbn [negb]. rewrite Hu, Hmeta. reflexivity.
Qed.

End EventFacts.

(** ** What the bot hands to the client *)

Section BotFacts.

Context {HS : Type}.

(** X17: [send_text_message] hands the client at least one text
    element; the texts sent, in order, are pieces of the message that
    hold no blank line and that, joined by blank lines, give the
    message back.  Nothing of the message is lost, and the call does not
    raise. *)
Theorem send_text_message_paragraphs
    (recipient_id : pyobj) (message : string) (s : HS) :
  exists parts : list string,
    parts <> []
    /\ send_text_message (HS := HS) recipient_id message s
       = (Ok tt,
          LogInfo ("Sending message: " +:+ message)
          :: map (fun part =>
                    ClientSend (ToDict (FBText part))
                      (PyDict [("sender", PyDict [("id", recipient_id)])])
                      "RESPONSE")
               parts,
          s)
    /\ PyStr.join double_newline parts = message
    /\ Forall (fun part => PyStr.contains double_newline part = false) parts.
Proof.
  exists (PyStr.split double_newline message). repeat split.
  - apply PyStrFacts.split_aux_not_nil.
  - apply send_text_message_run.
  - apply PyStrFacts.join_split.
  - apply List.Forall_forall. intros p Hp.
    now apply (SplitFacts.split_pieces _ _ message).
Qed.

(** X18: a message without a blank line is sent as one text element
    that holds the whole message; so the empty message is sent as one
    empty text. *)
Theorem send_text_message_single
    (recipient_id : pyobj) (message : string) (s : HS) :
  PyStr.contains double_newline message = false ->
  send_text_message (HS := HS) recipient_id message s
  = (Ok tt,
     [LogInfo ("Sending message: " +:+ message);
      ClientSend (ToDict (FBText message))
        (PyDict [("sender", PyDict [("id", recipient_id)])]) "RESPONSE"],
     s).
Proof.
  intros H. rewrite send_text_message_run.
  now rewrite (PyStrFacts.split_absent _ _ H).
Qed.

Lemma with_default_content_type (d : dict) :
  content_type_defaulted d (with_default "content_type" (PyStr "text") d).
Proof.
  unfold content_type_defaulted, with_default, Dict.has.
  destruct (Dict.get "content_type" d) eqn:E; [exact E |].
  apply DictFacts.get_set_same.
Qed.

(** X19: [send_quick_replies] hands the client one payload that holds
    the text as given and as many quick replies as given, however many:
    position by position, each is the given one with ["text"] as
    content type where none was given, and with every item it had. *)
Theorem send_quick_replies_defaulted
    (recipient_id text : pyobj) (quick_replies : list dict) (s : HS) :
  exists quick_replies' : list dict,
    send_quick_replies (HS := HS) recipient_id text
      (PyList (map PyDict quick_replies)) s
    = (Ok tt,
       [ClientSend
          (Payload
             (PyDict
                [("text", text);
                 ("quick_replies", PyList (map PyDict quick_replies'))]))
          (PyDict [("sender", PyDict [("id", recipient_id)])]) "RESPONSE"],
       s)
    /\ Forall2 content_type_defaulted quick_replies quick_replies'
    /\ Forall2 keeps_items quick_replies quick_replies'.
Proof.
  exists (map (with_default "content_type" (PyStr "text")) quick_replies).
  split; [| split].
  - unfold send_quick_replies, bind, lift, emit.
    now rewrite _add_text_info_dicts.
  - apply Forall2_map_self. apply with_default_content_type.
  - apply Forall2_map_self. intros d. apply DictFacts.with_default_keeps_items.
Qed.

End BotFacts.

Section LoopFacts.

Variables (key : string) (value : pyobj).

(** One pass of a defaulting loop over any list: where it does not
    raise, every entry holds the key afterwards. *)
Lemma mapM_defaulted (l l' : list pyobj) :
  Py.mapM
    (fun entry =>
       let* c := Py.contains key entry in
       if negb c then Py.setitem entry key value else Ok entry)%result
    l
  = Ok l' ->
  Forall2 (defaulted key) l l'.
Proof.
  revert l'. induction l as [|x l IH]; intros l' H.
  - cbn in H. injection H as <-. constructor.
  - cbn [Py.mapM] in H.
    destruct (Py.contains key x) as [c|] eqn:Ec; [| discriminate].
    cbn [rbind] in H.
    destruct (Py.mapM _ l) as [m|] eqn:El.
    + destruct c; cbn [negb] in H.
      * cbn [rbind] in H. injection H as <-.
        constructor; [| now apply IH]. now split.
      * destruct x; try discriminate. cbn [Py.setitem rbind] in H.
        injection H as <-. constructor; [| now apply IH]. split.
        -- cbn [Py.contains]. now rewrite DictFacts.has_set.
        -- intros Hc. congruence.
    + destruct c; cbn [negb] in H; [discriminate |].
      destruct x; discriminate.
Qed.

End LoopFacts.

(** X20: the postcondition of the defaulting loops, on any list.  When
    [_add_postback_info] ends without raising, the list has as many
    entries as before, each entry holds ['type'], and an entry that held
    it before is unchanged; likewise for [_add_text_info] and
    ['content_type']. *)
Theorem add_info_postcondition (l : list pyobj) (v : pyobj) :
  (_add_postback_info (PyList l) = Ok v ->
   exists l' : list pyobj, v = PyList l' /\ Forall2 (defaulted "type") l l')
  /\ (_add_text_info (PyList l) = Ok v ->
      exists l' : list pyobj,
        v = PyList l' /\ Forall2 (defaulted "content_type") l l').
Proof.
  unfold _add_postback_info, _add_text_info, Py.for_in_place.
  split; intros H.
  - destruct (Py.mapM _ l) as [l'|] eqn:E; [| discriminate].
    cbn in H. injection H as <-. exists l'. split; [reflexivity |].
    exact (mapM_defaulted "type" (PyStr "postback") l l' E).
  - destruct (Py.mapM _ l) as [l'|] eqn:E; [| discriminate].
    cbn in H. injection H as <-. exists l'. split; [reflexivity |].
    exact (mapM_defaulted "content_type" (PyStr "text") l l' E).
Qed.

Section CustomMessageFacts.

Context {HS : Type}.

(** X21: when one of the elements has no ['buttons'],
    [send_custom_message] raises and hands the client nothing, not even
    the elements that have buttons. *)
Theorem send_custom_message_missing_buttons
    (recipient_id : pyobj) (elements : list dict) (s : HS) :
  Exists (fun element => Dict.get "buttons" element = None) elements ->
  exists e : exn,
    send_custom_message (HS := HS) recipient_id (PyList (map PyDict elements)) s
    = (Raise e, [], s).
Proof.
  intros H. rewrite send_custom_message_run.
  assert (exists e : exn,
             add_postback_info_elements (PyList (map PyDict elements))
             = Raise e) as (e & ->); [| now exists e].
  unfold add_postback_info_elements, Py.for_in_place.
  match goal with
  | |- exists e, rbind (Py.mapM ?f ?l) ?k = Raise e =>
      assert (exists e : exn, Py.mapM f l = Raise e) as (e1 & ->);
        [| now exists e1]
  end.
  induction H as [x l Hx | x l _ (e1 & IH)].
  - exists KeyError. cbn [map Py.mapM Py.getitem]. now rewrite Hx.
  - cbn [map Py.mapM]. rewrite IH.
    destruct (rbind (Py.getitem (PyDict x) "buttons") _) as [y|e2].
    + now exists e1.
    + now exists e2.
Qed.

End CustomMessageFacts.

(** X22: the defaulting loops leave a dict of the store exactly as it
    is when the list does not refer to it, and also when it holds the
    key already. *)
Theorem add_info_in_place_untouched
    (h : gmap positive dict) (entries : list positive)
    (r : positive) (entry : dict) :
  h !! r = Some entry ->
  (r ∉ entries \/ Dict.has "type" entry = true ->
   InPlace._add_postback_info entries h !! r = Some entry)
  /\ (r ∉ entries \/ Dict.has "content_type" entry = true ->
      InPlace._add_text_info entries h !! r = Some entry).
Proof.
  intros Hr. unfold InPlace._add_postback_info, InPlace._add_text_info.
  split; intros H; rewrite InPlaceFacts.add_default_lookup;
    destruct (decide (r ∈ entries)) as [Hin|Hn]; try exact Hr;
    destruct H as [H|H]; try contradiction;
    rewrite Hr; cbn; unfold with_default; now rewrite H.
Qed.

(** ** The messages the webhook hands on *)

Section ForwardFacts.

Context {HS : Type}.
Variable py_str : pyobj -> string.
Variable hashlib : string -> option hashlib_attr.
Variable dispatch : pyobj -> list dispatched * option exn.

Lemma from_page_user_message (self : @Messenger HS) (text uid : pyobj) :
  from_page (page_access_token self) (user_message self text uid).
Proof. now split. Qed.

Lemma from_page_handle
    (self : @Messenger HS) (text uid : pyobj) (s : HS)
    (r : result unit) (tr : list event) (s' : HS) :
  _handle_user_message self text uid s = (r, tr, s') ->
  Forall (from_page (page_access_token self)) (forwards tr).
Proof.
  intros H. destruct (_handle_user_message_trace self text uid s) as (F & _).
  rewrite H in F. cbn [fst snd] in F. rewrite F.
  constructor; [apply from_page_user_message | constructor].
Qed.

Lemma from_page_invoke (self : @Messenger HS) (d : dispatched) (s : HS) :
  Forall (from_page (page_access_token self))
    (forwards (snd (fst (invoke py_str self d s)))).
Proof.
  unfold invoke.
  set (m := {| page_access_token := page_access_token self;
               on_new_message := on_new_message self;
               thread_control_authorized := thread_control_authorized self;
               get_user_id := user_id_of d |}).
  change (page_access_token self) with (page_access_token m).
  destruct (callback_of d); try (cbn; constructor).
  - destruct (message_shape py_str m (event_of d) s)
      as [(e & ->) | [-> | (text & uid & r & tr & s' & _ & Hh & ->)]];
      try (cbn; constructor).
    cbn [fst snd]. exact (from_page_handle m text uid s r tr s' Hh).
  - destruct (postback_shape m (event_of d) s)
      as [(e & ->) | (text & uid & r & tr & s' & _ & _ & Hh & ->)];
      try (cbn; constructor).
    cbn [fst snd]. exact (from_page_handle m text uid s r tr s' Hh).
  - destruct (handover_shape m (event_of d) s)
      as [(e & ->) | [-> | [-> |
          [(c & uid & r & tr & s' & _ & _ & _ & Hh & ->)
          | (a & md & uid & r & tr & s' & _ & _ & Hh & ->)]]]];
      try (cbn; constructor); cbn [fst snd].
    + exact (from_page_handle m _ uid s r tr s' Hh).
    + exact (from_page_handle m _ uid s r tr s' Hh).
Qed.

Lemma from_page_for_each
    (self : @Messenger HS) (ds : list dispatched) (s : HS) :
  Forall (from_page (page_access_token self))
    (forwards (snd (fst (for_each ds (invoke py_str self) s)))).
Proof.
  revert s. induction ds as [|d ds IH]; intros s; [constructor |].
  cbn [for_each]. unfold bind.
  pose proof (from_page_invoke self d s) as Hd.
  destruct (invoke py_str self d s) as [[[[]|e] tr] s1]; cbn [fst snd] in *.
  - pose proof (IH s1) as Hds.
    destruct (for_each ds (invoke py_str self) s1) as [[r tr'] s2].
    cbn [fst snd] in *. rewrite forwards_app. now apply Forall_app.
  - exact Hd.
Qed.

(** X23: whatever the request and whatever the library dispatches,
    every message the webhook hands to the handler names ["facebook"]
    as input channel and carries an output channel on the client of the
    page access token the channel was configured with. *)
Theorem webhook_forwards_from_page
    (self : FacebookInput)
    (handler : UserMessage -> HS -> option exn * HS)
    (request : Request) (s : HS) :
  Forall (from_page (fb_access_token self))
    (forwards
       (snd (fst (webhook py_str hashlib dispatch self handler request s)))).
Proof.
  unfold webhook, bind, lift, emit, ret.
  destruct (validate_hub_signature hashlib (fb_secret self) (data request)
              (or_empty (hub_signature request))) as [[|]|e];
    cbn [negb fst snd]; try (cbn; constructor).
  destruct (get_json request) as [json|e]; try (cbn; constructor).
  unfold handle, bind.
  set (m := {| page_access_token := fb_access_token self;
               on_new_message := handler;
               thread_control_authorized := fb_thread_control_authorized self;
               get_user_id := Raise KeyError |}).
  pose proof (from_page_for_each m (fst (dispatch json)) s) as H.
  destruct (for_each (fst (dispatch json)) (invoke py_str m) s)
    as [[[[]|e] tr] s1]; cbn [fst snd] in *.
  - destruct (snd (dispatch json)); unfold lift, ret; cbn [fst snd app];
      rewrite ?app_nil_r; exact H.
  - exact H.
Qed.

End ForwardFacts.

(** ** The further properties on examples *)

Lemma validate_hub_signature_malformed_witness :
  validate_hub_signature hashlib_sha1 "key" [] "" = Ok false
  /\ validate_hub_signature hashlib_sha1 "key" [] "sha1=ab=cd" = Ok false.
Proof.
  split.
  - apply (validate_hub_signature_malformed hashlib_sha1 "key" [] "").
    left. reflexivity.
  - apply (validate_hub_signature_malformed hashlib_sha1 "key" [] "sha1=ab=cd").
    right. exists "sha1", "ab", "cd". repeat split.
Defined.

Lemma validate_hub_signature_lower_hex_witness :
  Forall (fun c => is_lower_hex c = true)
    (list_ascii_of_string "de7c9b85b8b78aa6bc8a7a36f70a90701c9db4d9").
Proof.
  apply (validate_hub_signature_lower_hex hashlib_sha1 "key"
           (utf8 "The quick brown fox jumps over the lazy dog") "sha1"
           "de7c9b85b8b78aa6bc8a7a36f70a90701c9db4d9").
  - reflexivity.
  - vm_compute. reflexivity.
Defined.

Lemma webhook_refuses_unsigned_witness :
  webhook str_of_text hashlib_sha1 example_dispatch example_input
    accepting_handler
    {| hub_signature := None;
       data := utf8 "The quick brown fox jumps over the lazy dog";
       get_json := Ok (PyDict [("message", PyDict [("text", PyStr "hello")])]) |}
    0%nat
  = (Ok "not validated",
     [LogWarning
        "Wrong fb secret! Make sure this matches the secret in your facebook app settings"
        None],
     0%nat).
Proof.
  apply (webhook_refuses_unsigned str_of_text hashlib_sha1 example_dispatch
           example_input accepting_handler
           {| hub_signature := None;
              data := utf8 "The quick brown fox jumps over the lazy dog";
              get_json :=
                Ok (PyDict [("message", PyDict [("text", PyStr "hello")])]) |}
           0%nat).
  reflexivity.
Defined.

Lemma webhook_acts_only_when_verified_witness :
  validate_hub_signature hashlib_sha1 (fb_secret example_input)
    (data (example_request
             (PyDict [("message", PyDict [("text", PyStr "hello")])])))
    (or_empty
       (hub_signature
          (example_request
             (PyDict [("message", PyDict [("text", PyStr "hello")])]))))
  = Ok true.
Proof.
  apply (webhook_acts_only_when_verified str_of_text hashlib_sha1
           example_dispatch example_input accepting_handler
           (example_request
              (PyDict [("message", PyDict [("text", PyStr "hello")])]))
           0%nat).
  left. vm_compute. reflexivity.
Defined.

Lemma webhook_receipts_no_effect_witness :
  webhook str_of_text hashlib_sha1 receipt_dispatch example_input
    accepting_handler
    (example_request (PyDict [("object", PyStr "page")])) 0%nat
  = (Ok "success", [], 0%nat).
Proof.
  apply (webhook_receipts_no_effect str_of_text hashlib_sha1 receipt_dispatch
           example_input accepting_handler
           (example_request (PyDict [("object", PyStr "page")]))
           (PyDict [("object", PyStr "page")]) 0%nat).
  - vm_compute. reflexivity.
  - reflexivity.
  - repeat constructor.
  - reflexivity.
Defined.

Lemma no_sender_id_no_interaction_witness :
  interactions
    (snd (fst (message str_of_text (anonymous_messenger accepting_handler)
                 (PyDict [("message", PyDict [("text", PyStr "hello")])])
                 0%nat))) = []
  /\ interactions
       (snd (fst (postback (anonymous_messenger accepting_handler)
                    (PyDict [("postback", PyDict [("payload", PyStr "/greet")])])
                    0%nat))) = []
  /\ interactions
       (snd (fst (handover (anonymous_messenger accepting_handler)
                    (PyDict
                       [("request_thread_control",
                         PyDict
                           [("requested_owner_app_id", PyInt 263902037430900);
                            ("metadata", PyStr "additional content")])])
                    0%nat))) = [].
Proof.
  split; [| split].
  - apply (no_sender_id_no_interaction str_of_text
             (anonymous_messenger accepting_handler)
             (PyDict [("message", PyDict [("text", PyStr "hello")])])
             0%nat KeyError).
    reflexivity.
  - apply (no_sender_id_no_interaction str_of_text
             (anonymous_messenger accepting_handler)
             (PyDict [("postback", PyDict [("payload", PyStr "/greet")])])
             0%nat KeyError).
    reflexivity.
  - apply (no_sender_id_no_interaction str_of_text
             (anonymous_messenger accepting_handler)
             (PyDict
                [("request_thread_control",
                  PyDict
                    [("requested_owner_app_id", PyInt 263902037430900);
                     ("metadata", PyStr "additional content")])])
             0%nat KeyError).
    reflexivity.
Defined.

Lemma handover_request_first_witness :
  Forall (fun um => text um = PyStr "/passed_thread_control")
    (forwards
       (snd (fst (handover (example_messenger accepting_handler)
                    (PyDict
                       [("pass_thread_control",
                         PyDict [("new_owner_app_id", PyInt 263902037430900)]);
                        ("request_thread_control",
                         PyDict
                           [("requested_owner_app_id", PyInt 263902037430900);
                            ("metadata", PyStr "additional content")])])
                    0%nat)))).
Proof.
  apply (handover_request_first (example_messenger accepting_handler)
           (PyDict
              [("pass_thread_control",
                PyDict [("new_owner_app_id", PyInt 263902037430900)]);
               ("request_thread_control",
                PyDict
                  [("requested_owner_app_id", PyInt 263902037430900);
                   ("metadata", PyStr "additional content")])])
           (PyInt 263902037430900) 0%nat);
    reflexivity.
Defined.

Lemma postback_forwards_payload_witness :
  forwards
    (snd (fst (postback (example_messenger accepting_handler)
                 (PyDict
                    [("postback",
                      PyDict [("payload", PyStr (text_of_length 600))])])
                 0%nat)))
  = [user_message (example_messenger accepting_handler)
       (PyStr (text_of_length 600)) (PyStr "1254459154682919")]
  /\ client_calls
       (snd (fst (postback (example_messenger accepting_handler)
                    (PyDict
                       [("postback",
                         PyDict [("payload", PyStr (text_of_length 600))])])
                    0%nat)))
     = [].
Proof.
  apply (postback_forwards_payload (example_messenger accepting_handler)
           (PyDict
              [("postback", PyDict [("payload", PyStr (text_of_length 600))])])
           (PyStr (text_of_length 600)) (PyStr "1254459154682919") 0%nat);
    reflexivity.
Defined.

Lemma postback_without_payload_witness :
  postback (example_messenger accepting_handler)
    (PyDict [("postback", PyDict [("title", PyStr "Start")])]) 0%nat
  = (Raise KeyError,
     [Print "Handling postback: {}"
        (PyDict [("postback", PyDict [("title", PyStr "Start")])])],
     0%nat).
Proof.
  apply (postback_without_payload (example_messenger accepting_handler)
           [("postback", PyDict [("title", PyStr "Start")])] 0%nat).
  right. exists [("title", PyStr "Start")]. split; reflexivity.
Defined.

Lemma message_echo_not_forwarded_witness :
  message str_of_text (example_messenger accepting_handler)
    (PyDict
       [("message",
         PyDict [("is_echo", PyBool true); ("text", PyStr "hello")])])
    0%nat
  = (Ok tt,
     [Print "Message: {}"
        (PyDict
           [("message",
             PyDict [("is_echo", PyBool true); ("text", PyStr "hello")])]);
      LogWarning
        "Received a message from facebook that we can not handle. Message: {}"
        (Some
           (PyDict
              [("message",
                PyDict [("is_echo", PyBool true); ("text", PyStr "hello")])]))],
     0%nat).
Proof.
  apply (message_echo_not_forwarded str_of_text
           (example_messenger accepting_handler)
           [("message",
             PyDict [("is_echo", PyBool true); ("text", PyStr "hello")])]
           [("is_echo", PyBool true); ("text", PyStr "hello")]
           (PyStr "hello") (PyBool true) 0%nat);
    try reflexivity.
  intros a H. discriminate H.
Defined.

Lemma message_echo_audio_forwarded_witness :
  forwards
    (snd (fst (message str_of_text (example_messenger accepting_handler)
                 (PyDict
                    [("message",
                      PyDict
                        [("is_echo", PyBool true);
                         ("text", PyStr "listen");
                         ("attachments",
                          PyList
                            [PyDict
                               [("type", PyStr "audio");
                                ("payload",
                                 PyDict [("url", PyStr "https://cdn/a.mp4")])];
                             PyDict [("type", PyStr "image")]])])])
                 0%nat)))
  = [user_message (example_messenger accepting_handler)
       (PyStr "https://cdn/a.mp4") (PyStr "1254459154682919")]
  /\ client_calls
       (snd (fst (message str_of_text (example_messenger accepting_handler)
                    (PyDict
                       [("message",
                         PyDict
                           [("is_echo", PyBool true);
                            ("text", PyStr "listen");
                            ("attachments",
                             PyList
                               [PyDict
                                  [("type", PyStr "audio");
                                   ("payload",
                                    PyDict [("url", PyStr "https://cdn/a.mp4")])];
                                PyDict [("type", PyStr "image")]])])])
                    0%nat)))
     = [].
Proof.
  apply (message_echo_audio_forwarded str_of_text
           (example_messenger accepting_handler)
           [("message",
             PyDict
               [("is_echo", PyBool true);
                ("text", PyStr "listen");
                ("attachments",
                 PyList
                   [PyDict
                      [("type", PyStr "audio");
                       ("payload", PyDict [("url", PyStr "https://cdn/a.mp4")])];
                    PyDict [("type", PyStr "image")]])])]
           [("is_echo", PyBool true);
            ("text", PyStr "listen");
            ("attachments",
             PyList
               [PyDict
                  [("type", PyStr "audio");
                   ("payload", PyDict [("url", PyStr "https://cdn/a.mp4")])];
                PyDict [("type", PyStr "image")]])]
           [("type", PyStr "audio");
            ("payload", PyDict [("url", PyStr "https://cdn/a.mp4")])]
           [("url", PyStr "https://cdn/a.mp4")]
           [PyDict [("type", PyStr "image")]]
           (PyStr "listen") (PyBool true) (PyStr "https://cdn/a.mp4")
           (PyStr "1254459154682919") 0%nat);
    reflexivity.
Defined.

Lemma message_location_text_witness :
  forwards
    (snd (fst (message str_of_text (example_messenger accepting_handler)
                 (PyDict
                    [("message",
                      PyDict
                        [("attachments",
                          PyList
                            [PyDict
                               [("type", PyStr "location");
                                ("payload",
                                 PyDict
                                   [("coordinates",
                                     PyDict
                                       [("lat", PyStr "52.5");
                                        ("long", PyStr "13.4")])])]])])])
                 0%nat)))
  = [user_message (example_messenger accepting_handler)
       (PyStr "52.5 13.4") (PyStr "1254459154682919")].
Proof.
  apply (message_location_text str_of_text
           (example_messenger accepting_handler)
           [("message",
             PyDict
               [("attachments",
                 PyList
                   [PyDict
                      [("type", PyStr "location");
                       ("payload",
                        PyDict
                          [("coordinates",
                            PyDict
                              [("lat", PyStr "52.5");
                               ("long", PyStr "13.4")])])]])])]
           [("attachments",
             PyList
               [PyDict
                  [("type", PyStr "location");
                   ("payload",
                    PyDict
                      [("coordinates",
                        PyDict
                          [("lat", PyStr "52.5"); ("long", PyStr "13.4")])])]])]
           [("type", PyStr "location");
            ("payload",
             PyDict
               [("coordinates",
                 PyDict [("lat", PyStr "52.5"); ("long", PyStr "13.4")])])]
           [("coordinates",
             PyDict [("lat", PyStr "52.5"); ("long", PyStr "13.4")])]
           [("lat", PyStr "52.5"); ("long", PyStr "13.4")]
           []
           (PyStr "52.5") (PyStr "13.4") (PyStr "1254459154682919") 0%nat);
    reflexivity.
Defined.

Lemma handover_request_without_metadata_witness :
  handover (example_messenger accepting_handler)
    (PyDict
       [("request_thread_control",
         PyDict [("requested_owner_app_id", PyInt 263902037430900)])])
    0%nat
  = (Raise KeyError,
     [Print "Handover: {}"
        (PyDict
           [("request_thread_control",
             PyDict [("requested_owner_app_id", PyInt 263902037430900)])])],
     0%nat).
Proof.
  apply (handover_request_without_metadata
           (example_messenger accepting_handler)
           [("request_thread_control",
             PyDict [("requested_owner_app_id", PyInt 263902037430900)])]
           [("requested_owner_app_id", PyInt 263902037430900)]
           (PyInt 263902037430900) (PyStr "1254459154682919") 0%nat);
    reflexivity.
Defined.

Lemma send_text_message_single_witness :
  send_text_message (PyStr "1254459154682919") "" 0%nat
  = (Ok tt,
     [LogInfo "Sending message: ";
      ClientSend (ToDict (FBText ""))
        (PyDict [("sender", PyDict [("id", PyStr "1254459154682919")])])
        "RESPONSE"],
     0%nat).
Proof.
  apply (send_text_message_single (PyStr "1254459154682919") "" 0%nat).
  reflexivity.
Defined.

Lemma add_info_postcondition_witness :
  exists l' : list pyobj,
    PyList [PyDict [("title", PyStr "yes"); ("type", PyStr "postback")];
            PyStr "prototype"]
    = PyList l'
    /\ Forall2 (defaulted "type")
         [PyDict [("title", PyStr "yes")]; PyStr "prototype"] l'.
Proof.
  apply (add_info_postcondition
           [PyDict [("title", PyStr "yes")]; PyStr "prototype"]
           (PyList
              [PyDict [("title", PyStr "yes"); ("type", PyStr "postback")];
               PyStr "prototype"])).
  reflexivity.
Defined.

Lemma send_custom_message_missing_buttons_witness :
  exists e : exn,
    send_custom_message (PyStr "1254459154682919")
      (PyList
         (map PyDict
            [[("title", PyStr "card");
              ("buttons", PyList [PyDict [("title", PyStr "more")]])];
             [("title", PyStr "plain card")]]))
      0%nat
    = (Raise e, [], 0%nat).
Proof.
  apply (send_custom_message_missing_buttons (PyStr "1254459154682919")
           [[("title", PyStr "card");
             ("buttons", PyList [PyDict [("title", PyStr "more")]])];
            [("title", PyStr "plain card")]]
           0%nat).
  apply Exists_cons_tl. apply Exists_cons_hd. reflexivity.
Defined.

Lemma add_info_in_place_untouched_witness :
  InPlace._add_postback_info [1%positive; 2%positive]
    (<[1%positive := [("title", PyStr "yes")]]>
       (<[2%positive := [("type", PyStr "web_url")]]>
          (<[3%positive := [("title", PyStr "other")]]> ∅)))
  !! 3%positive
  = Some [("title", PyStr "other")]
  /\ InPlace._add_postback_info [1%positive; 2%positive]
       (<[1%positive := [("title", PyStr "yes")]]>
          (<[2%positive := [("type", PyStr "web_url")]]>
             (<[3%positive := [("title", PyStr "other")]]> ∅)))
     !! 2%positive
     = Some [("type", PyStr "web_url")].
Proof.
  split.
  - apply (add_info_in_place_untouched
             (<[1%positive := [("title", PyStr "yes")]]>
                (<[2%positive := [("type", PyStr "web_url")]]>
                   (<[3%positive := [("title", PyStr "other")]]> ∅)))
             [1%positive; 2%positive] 3%positive [("title", PyStr "other")]).
    + reflexivity.
    + left. intros H. apply elem_of_cons in H as [H|H]; [discriminate |].
      apply elem_of_cons in H as [H|H]; [discriminate |].
      now apply elem_of_nil in H.
  - apply (add_info_in_place_untouched
             (<[1%positive := [("title", PyStr "yes")]]>
                (<[2%positive := [("type", PyStr "web_url")]]>
                   (<[3%positive := [("title", PyStr "other")]]> ∅)))
             [1%positive; 2%positive] 2%positive [("type", PyStr "web_url")]).
    + reflexivity.
    + right. reflexivity.
Defined.
